(** * Investment Assistant dashboard: opportunity store, filter and stats

    A shallow embedding of the React front end's data handling:

    - [frontend/src/pages/Opportunities.jsx]  (module [OpportunitiesPage]),
    - [frontend/src/pages/Home.jsx]           (module [Home]),
    - the single-page [App] component          (module [App]),

    together with the JavaScript primitives they rely on (module [JS]).

    JavaScript numbers are IEEE 754 binary64 values: they are modelled by
    Rocq's primitive [float], whose operations are the same binary64
    operations.  Strings are sequences of code units; the model covers code
    units below 256 (Latin-1), for which [toLowerCase] and [trim] are given
    exactly as ECMAScript defines them.

    The file has two parts: the embedding of the code, followed by the
    notions used in the statements; then the properties, from the
    arithmetic of numbers up to the fetch lifecycle of the components. *)

From Stdlib Require Import ZArith List String Ascii Bool Lia Floats.
From stdpp Require Import list gmap.
From Stdlib Require DecimalString DecimalZ.
Import ListNotations.

#[local] Set Warnings "-inexact-float".
#[local] Open Scope string_scope.

(** Appending to a string literal computes under [simpl]. *)
#[local] Arguments String.append : simpl nomatch.

(* ================================================================== *)
(** * JavaScript primitives *)
(* ================================================================== *)

Module JS.

(** ** Strings *)

(** [String.prototype.toLowerCase] on one code unit: A-Z and the Latin-1
    capitals U+00C0..U+00DE (U+00D7, the multiplication sign, excepted)
    move 32 places up; every other code unit below 256 is unchanged. *)
Definition lower_unit (c : ascii) : ascii :=
  let n := N_of_ascii c in
  if ((65 <=? n) && (n <=? 90)
      || (192 <=? n) && (n <=? 222) && negb (n =? 215))%N
  then ascii_of_N (n + 32)
  else c.

Fixpoint toLowerCase (s : string) : string :=
  match s with
  | EmptyString => EmptyString
  | String c s' => String (lower_unit c) (toLowerCase s')
  end.

(** [s.includes(t)]: [t] occurs in [s] as a contiguous substring. *)
Fixpoint includes (s t : string) : bool :=
  String.prefix t s
  || match s with
     | EmptyString => false
     | String _ s' => includes s' t
     end.

(** ECMAScript WhiteSpace and LineTerminator code units below 256:
    TAB, LF, VT, FF, CR, SPACE and NO-BREAK SPACE. *)
Definition isWhiteSpace (c : ascii) : bool :=
  let n := N_of_ascii c in
  ((9 <=? n) && (n <=? 13) || (n =? 32) || (n =? 160))%N.

Fixpoint trimStart (s : string) : string :=
  match s with
  | EmptyString => EmptyString
  | String c s' => if isWhiteSpace c then trimStart s' else s
  end.

Fixpoint trimEnd (s : string) : string :=
  match s with
  | EmptyString => EmptyString
  | String c s' =>
      match trimEnd s' with
      | EmptyString => if isWhiteSpace c then EmptyString else String c EmptyString
      | t => String c t
      end
  end.

(** [String.prototype.trim]. *)
Definition trim (s : string) : string := trimEnd (trimStart s).

(** ToBoolean on a string: only the empty string is falsy. *)
Definition truthy (s : string) : bool := negb (s =? "").

(** ** Numbers *)

Abbreviation number := float.

(** ToNumber of an array length (an integer below 2^32, exactly
    representable). *)
Definition of_length (n : nat) : number :=
  of_uint63 (Uint63.of_Z (Z.of_nat n)).

(** The integer nearest to [num / den], ties going up:
    floor (num / den + 1/2). *)
Definition round_half_up (num den : Z) : Z := (2 * num + den) / (2 * den).

(** The number that is the integer [n] (below 2^53 in absolute value);
    a zero takes the sign given by [negative]. *)
Definition of_integer (n : Z) (negative : bool) : number :=
  let r := of_uint63 (Uint63.of_Z (Z.abs n)) in
  if (n <? 0)%Z || ((n =? 0)%Z && negative) then (- r)%float else r.

(** [Math.round]: NaN, the infinities and the zeros are returned as they
    are; so is a value whose exponent is non-negative, which is integral.
    Otherwise [x = +-m * 2^e] with [e < 0] is rounded to the nearest
    integer, ties towards +infinity; a zero result keeps the sign of [x]
    (Math.round(-0.2) is -0). *)
Definition Math_round (x : number) : number :=
  match Prim2SF x with
  | S754_finite s m e =>
      if (0 <=? e)%Z then x
      else of_integer (round_half_up (cond_Zopp s (Zpos m)) (2 ^ (- e))) s
  | _ => x
  end.

(** [x >= y] and [x > y] on numbers (false as soon as one side is NaN). *)
Definition ge (x y : number) : bool := (y <=? x)%float.
Definition gt (x y : number) : bool := (y <? x)%float.
Definition lt (x y : number) : bool := (x <? y)%float.


(** ** More string primitives *)

(** [String.prototype.toUpperCase] on one code unit.  a-z and the Latin-1
    small letters U+00E0..U+00FE (U+00F7, the division sign, excepted)
    move 32 places down, and the sharp s U+00DF becomes "SS".  The capitals
    of the micro sign U+00B5 and of U+00FF lie outside Latin-1: the model
    leaves these two code units as they are, and the properties of
    functions that call [toUpperCase] are stated for strings without
    them ([upper_in_model]). *)
Definition upper_unit (c : ascii) : string :=
  let n := N_of_ascii c in
  if ((97 <=? n) && (n <=? 122)
      || (224 <=? n) && (n <=? 254) && negb (n =? 247))%N
  then String (ascii_of_N (n - 32)) EmptyString
  else if (n =? 223)%N then "SS"
  else String c EmptyString.

Fixpoint toUpperCase (s : string) : string :=
  match s with
  | EmptyString => EmptyString
  | String c s' => upper_unit c ++ toUpperCase s'
  end.

Definition upper_in_model (s : string) : bool :=
  forallb (fun c => negb ((N_of_ascii c =? 181) || (N_of_ascii c =? 255))%N)
          (list_ascii_of_string s).

(** [s.replace(pattern, replacement)] with a string pattern: the first
    occurrence of [pattern] is replaced ([replacement] holds no [$]). *)
Fixpoint replace (s pattern replacement : string) : string :=
  if String.prefix pattern s
  then replacement ++ String.substring (String.length pattern)
                                       (String.length s - String.length pattern) s
  else match s with
       | EmptyString => EmptyString
       | String c s' => String c (replace s' pattern replacement)
       end.

(** A template literal's text for a number that is an integer: its
    decimal digits.  This is exact on the safe integers (below 2^53 in
    absolute value), each of which is a number and is printed with all
    its digits; the properties that read the text are stated for them. *)
Definition integer_text (z : Z) : string :=
  DecimalString.NilZero.string_of_int (Z.to_int z).

End JS.

(* ================================================================== *)
(** * Data model *)
(* ================================================================== *)

(** One row of [GET /opportunities], with the fields that the filter, the
    stats and the list keys read ([timeframe], [rsi], [volume_ratio],
    [rationale] and [key_indicators] are only displayed).  As in the data
    model, [ticker] and [setup_type] are strings and [confidence_score] is
    a number; [id] and [price] may be absent. *)
Record Opportunity := mkOpportunity {
  id : option Z;
  ticker : string;
  setup_type : string;
  price : option JS.number;
  confidence_score : JS.number
}.

Definition has_id (opp : Opportunity) : Prop := id opp <> None.

(** The two keyword tests that occur (verbatim) in the list filter, in
    [getSetupTypeColor] and in the Home page's stats. *)
Definition bullish_keywords (opp : Opportunity) : bool :=
  JS.includes (JS.toLowerCase (setup_type opp)) "bullish"
  || JS.includes (JS.toLowerCase (setup_type opp)) "momentum".

Definition bearish_keywords (opp : Opportunity) : bool :=
  JS.includes (JS.toLowerCase (setup_type opp)) "short"
  || JS.includes (JS.toLowerCase (setup_type opp)) "bear".

(* ================================================================== *)
(** * The filter/search engine of [Opportunities.jsx] *)
(* ================================================================== *)

Module Filter.

(** [const matchesSearch = searchTerm === '' || ticker... || setup_type...] *)
Definition matchesSearch (searchTerm : string) (opp : Opportunity) : bool :=
  (searchTerm =? "")
  || JS.includes (JS.toLowerCase (ticker opp)) (JS.toLowerCase searchTerm)
  || JS.includes (JS.toLowerCase (setup_type opp)) (JS.toLowerCase searchTerm).

(** [const matchesFilter = filterType === 'all' || (... && ...) || ...] *)
Definition matchesFilter (filterType : string) (opp : Opportunity) : bool :=
  (filterType =? "all")
  || (filterType =? "bullish") && bullish_keywords opp
  || (filterType =? "bearish") && bearish_keywords opp
  || (filterType =? "high-confidence") && JS.ge (confidence_score opp) 0.7.

(** [opportunities.filter(opp => { ...; return matchesSearch && matchesFilter })] *)
Definition filteredOpportunities
    (opportunities : list Opportunity) (searchTerm filterType : string)
    : list Opportunity :=
  List.filter
    (fun opp => matchesSearch searchTerm opp && matchesFilter filterType opp)
    opportunities.

End Filter.

(* ================================================================== *)
(** * Aggregate stats *)
(* ================================================================== *)

(** The [stats] object of the [App] component, re-derived from the store
    on every render. *)
Module AppStats.

Record t := mk {
  totalOpportunities : nat;
  avgConfidence : JS.number;
  highConfidence : nat;
  totalValue : JS.number
}.

(** [parseFloat(opp.price) || 0]: an absent price parses to NaN, and NaN
    and zero are falsy. *)
Definition price_or_zero (opp : Opportunity) : JS.number :=
  match price opp with
  | Some p => if is_nan p || is_zero p then 0%float else p
  | None => 0%float
  end.

Definition stats (opportunities : list Opportunity) : t :=
  {| totalOpportunities := length opportunities;
     avgConfidence :=
       if (0 <? length opportunities)%nat
       then JS.Math_round
              (fold_left (fun sum opp => sum + confidence_score opp * 100)
                         opportunities 0
               / JS.of_length (length opportunities))%float
       else 0%float;
     highConfidence :=
       length (List.filter
                 (fun opp => JS.ge (confidence_score opp * 100)%float 70)
                 opportunities);
     totalValue :=
       fold_left (fun sum opp => sum + price_or_zero opp)%float
                 opportunities 0%float |}.

End AppStats.

(** The stats computed by [loadDashboardData] in [Home.jsx]. *)
Module HomeStats.

Record t := mk {
  totalOpportunities : nat;
  highConfidence : nat;
  bullishSetups : nat;
  bearishSetups : nat
}.

Definition initial : t := mk 0 0 0 0.

Definition compute (opps : list Opportunity) : t :=
  {| totalOpportunities := length opps;
     highConfidence :=
       length (List.filter (fun opp => JS.gt (confidence_score opp) 0.7) opps);
     bullishSetups := length (List.filter bullish_keywords opps);
     bearishSetups := length (List.filter bearish_keywords opps) |}.

End HomeStats.

(* ================================================================== *)
(** * Effects: HTTP requests, console, component state *)
(* ================================================================== *)

(** An [async] function of a component is a computation over

    - the environment: the backend that answers the requests and the
      clock read by [new Date().toLocaleTimeString()],
    - the outside world it acts on: the requests sent and the console,
    - the component's state (the [useState] cells).

    It completes normally or by throwing.  Every awaited promise is taken
    to settle: an [axios] call either resolves with the response data or
    rejects with an error carrying a message (network failure, or a
    status outside 2xx). *)

Module Effects.

Inductive Body :=
| ResearchBody (query : string) (lookback_days : Z)
| ChatBody (message : string).

Definition Headers := list (string * string).

Inductive Request :=
| Get (url : string) (headers : Headers)
| Post (url : string) (body : Body) (headers : Headers).

Inductive Outcome (A : Type) :=
| Resolved (data : A)
| Rejected (message : string).
Arguments Resolved {A} data.
Arguments Rejected {A} message.

(** The backend, one answer function per endpoint.  An answer may depend
    on everything sent so far (the log ends with the request being
    answered).  [GET /opportunities] answers with an array of rows, or
    with an empty (falsy) body, written [None]; the body of the
    [POST /research] answer is the list of rows the trigger computed. *)
Record Backend := mkBackend {
  health : list Request -> Outcome string;
  list_opportunities : list Request -> Outcome (option (list Opportunity));
  research : list Request -> Outcome (list Opportunity);
  chat : list Request -> Outcome string
}.

Record Env := mkEnv {
  backend : Backend;
  toLocaleTimeString : string
}.

Record World := mkWorld {
  sent : list Request;
  console : list (list string)
}.

Record Error := mkError { message : string }.

Inductive Completion (A : Type) :=
| Normal (a : A)
| Throw (e : Error).
Arguments Normal {A} a.
Arguments Throw {A} e.

Definition M (S A : Type) : Type :=
  Env -> World -> S -> Completion A * World * S.

Section Ops.
Context {S : Type}.

Definition ret {A} (a : A) : M S A :=
  fun _ w st => (Normal a, w, st).

Definition bind {A B} (m : M S A) (k : A -> M S B) : M S B :=
  fun env w st =>
    match m env w st with
    | (Normal a, w', st') => k a env w' st'
    | (Throw e, w', st') => (Throw e, w', st')
    end.

(** The state as the running closure sees it. *)
Definition read : M S S :=
  fun _ w st => (Normal st, w, st).

(** A state setter. *)
Definition set (f : S -> S) : M S unit :=
  fun _ w st => (Normal tt, w, f st).

Definition now : M S string :=
  fun env w st => (Normal (toLocaleTimeString env), w, st).

Definition console_log (args : list string) : M S unit :=
  fun _ w st =>
    (Normal tt, {| sent := sent w; console := console w ++ [args] |}, st).

(** [await axios.get(...)] / [await axios.post(...)]: the request is
    sent, and the promise resolves or rejects (throws). *)
Definition axios {A} (endpoint : Backend -> list Request -> Outcome A)
    (r : Request) : M S A :=
  fun env w st =>
    let w' := {| sent := sent w ++ [r]; console := console w |} in
    match endpoint (backend env) (sent w') with
    | Resolved data => (Normal data, w', st)
    | Rejected msg => (Throw (mkError msg), w', st)
    end.

(** [try { body } catch (err) { handler }] *)
Definition try_catch {A} (body : M S A) (handler : Error -> M S A) : M S A :=
  fun env w st =>
    match body env w st with
    | (Normal a, w', st') => (Normal a, w', st')
    | (Throw e, w', st') => handler e env w' st'
    end.

(** [try { body } catch (err) { handler } finally { final }]: [final]
    runs whatever the completion of the try/catch, which it keeps
    unless [final] itself throws. *)
Definition try_catch_finally {A} (body : M S A) (handler : Error -> M S A)
    (final : M S unit) : M S A :=
  fun env w st =>
    match try_catch body handler env w st with
    | (c, w', st') =>
        match final env w' st' with
        | (Normal _, w'', st'') => (c, w'', st'')
        | (Throw e, w'', st'') => (Throw e, w'', st'')
        end
    end.

End Ops.

Declare Scope js_scope.
Delimit Scope js_scope with js.
Notation "x <- m ;; k" := (bind m (fun x => k))
  (at level 100, m at next level, right associativity) : js_scope.
Notation "m ;; k" := (bind m (fun _ => k))
  (at level 100, right associativity) : js_scope.

End Effects.

Import Effects.

Definition API_BASE_URL : string := "http://localhost:8001".
Definition API_TOKEN : string := "dev-key-12345".

Definition bearer : string * string := ("Authorization", "Bearer " ++ API_TOKEN).
Definition json : string * string := ("Content-Type", "application/json").

(** The requests the pages issue. *)
Definition health_request : Request := Get (API_BASE_URL ++ "/health") [].
Definition list_request : Request := Get (API_BASE_URL ++ "/opportunities") [bearer].
Definition research_request : Request :=
  Post (API_BASE_URL ++ "/research")
       (ResearchBody "Find technical trading opportunities" 30)
       [bearer; json].
Definition chat_request (message : string) : Request :=
  Post (API_BASE_URL ++ "/chat") (ChatBody message) [bearer; json].

(** [response.data || []] *)
Definition data_or_empty (data : option (list Opportunity)) : list Opportunity :=
  match data with
  | Some rows => rows
  | None => []
  end.

(* ================================================================== *)
(** * [Opportunities.jsx] *)
(* ================================================================== *)

Module OpportunitiesPage.

Record State := mkState {
  opportunities : list Opportunity;
  loading : bool;
  error : option string;
  isAgentRunning : bool;
  agentStatus : string;
  selectedOpportunity : option Opportunity;
  isModalOpen : bool;
  lastAnalysisTime : option string;
  searchTerm : string;
  filterType : string
}.

(** The [useState] initial values. *)
Definition initial : State :=
  mkState [] false None false "checking" None false None "" "all".

Definition setOpportunities (v : list Opportunity) : M State unit :=
  set (fun st => mkState v (loading st) (error st) (isAgentRunning st)
                   (agentStatus st) (selectedOpportunity st) (isModalOpen st)
                   (lastAnalysisTime st) (searchTerm st) (filterType st)).
Definition setLoading (v : bool) : M State unit :=
  set (fun st => mkState (opportunities st) v (error st) (isAgentRunning st)
                   (agentStatus st) (selectedOpportunity st) (isModalOpen st)
                   (lastAnalysisTime st) (searchTerm st) (filterType st)).
Definition setError (v : option string) : M State unit :=
  set (fun st => mkState (opportunities st) (loading st) v (isAgentRunning st)
                   (agentStatus st) (selectedOpportunity st) (isModalOpen st)
                   (lastAnalysisTime st) (searchTerm st) (filterType st)).
Definition setIsAgentRunning (v : bool) : M State unit :=
  set (fun st => mkState (opportunities st) (loading st) (error st) v
                   (agentStatus st) (selectedOpportunity st) (isModalOpen st)
                   (lastAnalysisTime st) (searchTerm st) (filterType st)).
Definition setAgentStatus (v : string) : M State unit :=
  set (fun st => mkState (opportunities st) (loading st) (error st)
                   (isAgentRunning st) v (selectedOpportunity st)
                   (isModalOpen st) (lastAnalysisTime st) (searchTerm st)
                   (filterType st)).
Definition setLastAnalysisTime (v : option string) : M State unit :=
  set (fun st => mkState (opportunities st) (loading st) (error st)
                   (isAgentRunning st) (agentStatus st)
                   (selectedOpportunity st) (isModalOpen st) v
                   (searchTerm st) (filterType st)).

#[local] Open Scope js_scope.

Definition checkAgentHealth : M State unit :=
  try_catch
    (response <- axios health health_request ;;
     setAgentStatus "connected" ;;
     console_log ["Agent health:"; response])
    (fun err =>
       setAgentStatus "disconnected" ;;
       setError (Some "Unable to connect to Technical Researcher Agent")).

Definition loadExistingOpportunities : M State unit :=
  try_catch
    (response <- axios list_opportunities list_request ;;
     setOpportunities (data_or_empty response))
    (fun err =>
       console_log ["Failed to load existing opportunities:"; message err]).

Definition runTechnicalAnalysis : M State unit :=
  setLoading true ;;
  setError None ;;
  setIsAgentRunning true ;;
  try_catch_finally
    (* First trigger the research to update opportunities *)
    (_ <- axios research research_request ;;
     (* Then fetch the updated opportunities with proper IDs *)
     response <- axios list_opportunities list_request ;;
     setOpportunities (data_or_empty response) ;;
     t <- now ;;
     setLastAnalysisTime (Some t))
    (fun err =>
       setError (Some ("Failed to fetch trading opportunities: " ++ message err)))
    (setLoading false ;;
     setIsAgentRunning false).

(** The derived view rendered by the page. *)
Definition filteredOpportunities (st : State) : list Opportunity :=
  Filter.filteredOpportunities (opportunities st) (searchTerm st) (filterType st).

(** [disabled={loading || isAgentRunning}] on the Run Analysis button. *)
Definition runDisabled (st : State) : bool := loading st || isAgentRunning st.


Definition setSelectedOpportunity (v : option Opportunity) : M State unit :=
  set (fun st => mkState (opportunities st) (loading st) (error st)
                   (isAgentRunning st) (agentStatus st) v (isModalOpen st)
                   (lastAnalysisTime st) (searchTerm st) (filterType st)).
Definition setIsModalOpen (v : bool) : M State unit :=
  set (fun st => mkState (opportunities st) (loading st) (error st)
                   (isAgentRunning st) (agentStatus st)
                   (selectedOpportunity st) v (lastAnalysisTime st)
                   (searchTerm st) (filterType st)).

Definition openModal (opportunity : Opportunity) : M State unit :=
  setSelectedOpportunity (Some opportunity) ;;
  setIsModalOpen true.

Definition closeModal : M State unit :=
  setIsModalOpen false ;;
  setSelectedOpportunity None.

Definition getSetupTypeColor (setupType : string) : string :=
  if JS.includes (JS.toLowerCase setupType) "bullish"
     || JS.includes (JS.toLowerCase setupType) "momentum"
  then "text-green-400 bg-green-500/20"
  else if JS.includes (JS.toLowerCase setupType) "short"
          || JS.includes (JS.toLowerCase setupType) "bear"
  then "text-red-400 bg-red-500/20"
  else "text-blue-400 bg-blue-500/20".

Definition getConfidenceColor (confidence : JS.number) : string :=
  if JS.ge confidence 0.8 then "text-green-400"
  else if JS.ge confidence 0.6 then "text-yellow-400"
  else "text-orange-400".

(** The card of a row.  [key={opportunity.id || index}]: an absent id and
    the id 0 are falsy. *)
Definition cardKey (opportunity : Opportunity) (index : nat) : Z :=
  match id opportunity with
  | Some i => if (i =? 0)%Z then Z.of_nat index else i
  | None => Z.of_nat index
  end.

(** [filteredOpportunities.map((opportunity, index) => <div key=...>)] *)
Definition cardKeys (view : list Opportunity) : list Z :=
  imap (fun index opportunity => cardKey opportunity index) view.

(** [{Math.round(opportunity.confidence_score * 100)}% confidence] *)
Definition confidencePercent (opportunity : Opportunity) : JS.number :=
  JS.Math_round (confidence_score opportunity * 100)%float.

(** [{opportunity.rationale && (... {opportunity.rationale.substring(0, 100)}...)}]:
    the preview of a rationale, when there is one to show. *)
Definition rationalePreview (rationale : option string) : option string :=
  match rationale with
  | Some r => if JS.truthy r then Some (String.substring 0 100 r ++ "...") else None
  | None => None
  end.

(** The panel shown in place of the cards when the filtered view is empty:
    its title, its hint, and the Run Analysis button with its [disabled]
    flag when the button is shown. *)
Record EmptyPanel := mkEmptyPanel {
  title : string;
  hint : string;
  runButton : option bool
}.

Definition emptyPanel (st : State) : option EmptyPanel :=
  if (0 <? length (filteredOpportunities st))%nat then None
  else
    let filtering := JS.truthy (searchTerm st) || negb (filterType st =? "all") in
    Some {| title := if filtering then "No matching opportunities"
                     else "No opportunities found";
            hint := if filtering then "Try adjusting your search or filter criteria"
                    else "Run the technical analysis to discover trading opportunities";
            runButton := if negb (JS.truthy (searchTerm st)) && (filterType st =? "all")
                         then Some (loading st) else None |}.

End OpportunitiesPage.

(* ================================================================== *)
(** * The [App] component *)
(* ================================================================== *)

Module App.

Record Message := mkMessage { role : string; content : string }.

Record State := mkState {
  opportunities : list Opportunity;
  loading : bool;
  chatMessages : list Message;
  chatInput : string;
  error : option string;
  isAgentRunning : bool;
  lastAnalysisTime : option string;
  selectedTimeframe : string;
  marketStatus : string;
  selectedOpportunity : option Opportunity;
  isModalOpen : bool
}.

Definition initial : State :=
  mkState [] false [] "" None false None "1D" "OPEN" None false.

Definition setOpportunities (v : list Opportunity) : M State unit :=
  set (fun st => mkState v (loading st) (chatMessages st) (chatInput st)
                   (error st) (isAgentRunning st) (lastAnalysisTime st)
                   (selectedTimeframe st) (marketStatus st)
                   (selectedOpportunity st) (isModalOpen st)).
Definition setLoading (v : bool) : M State unit :=
  set (fun st => mkState (opportunities st) v (chatMessages st) (chatInput st)
                   (error st) (isAgentRunning st) (lastAnalysisTime st)
                   (selectedTimeframe st) (marketStatus st)
                   (selectedOpportunity st) (isModalOpen st)).
(** [setChatMessages(prev => ...)] takes an updater. *)
Definition setChatMessages (f : list Message -> list Message) : M State unit :=
  set (fun st => mkState (opportunities st) (loading st) (f (chatMessages st))
                   (chatInput st) (error st) (isAgentRunning st)
                   (lastAnalysisTime st) (selectedTimeframe st)
                   (marketStatus st) (selectedOpportunity st) (isModalOpen st)).
Definition setChatInput (v : string) : M State unit :=
  set (fun st => mkState (opportunities st) (loading st) (chatMessages st) v
                   (error st) (isAgentRunning st) (lastAnalysisTime st)
                   (selectedTimeframe st) (marketStatus st)
                   (selectedOpportunity st) (isModalOpen st)).
Definition setError (v : option string) : M State unit :=
  set (fun st => mkState (opportunities st) (loading st) (chatMessages st)
                   (chatInput st) v (isAgentRunning st) (lastAnalysisTime st)
                   (selectedTimeframe st) (marketStatus st)
                   (selectedOpportunity st) (isModalOpen st)).
Definition setIsAgentRunning (v : bool) : M State unit :=
  set (fun st => mkState (opportunities st) (loading st) (chatMessages st)
                   (chatInput st) (error st) v (lastAnalysisTime st)
                   (selectedTimeframe st) (marketStatus st)
                   (selectedOpportunity st) (isModalOpen st)).
Definition setLastAnalysisTime (v : option string) : M State unit :=
  set (fun st => mkState (opportunities st) (loading st) (chatMessages st)
                   (chatInput st) (error st) (isAgentRunning st) v
                   (selectedTimeframe st) (marketStatus st)
                   (selectedOpportunity st) (isModalOpen st)).

#[local] Open Scope js_scope.

Definition checkAgentHealth : M State unit :=
  try_catch
    (response <- axios health health_request ;;
     console_log ["Agent health:"; response])
    (fun err =>
       setError (Some "Unable to connect to Technical Researcher Agent")).

Definition loadExistingOpportunities : M State unit :=
  try_catch
    (response <- axios list_opportunities list_request ;;
     setOpportunities (data_or_empty response))
    (fun err =>
       console_log ["Failed to load existing opportunities:"; message err]).

Definition runTechnicalAnalysis : M State unit :=
  setLoading true ;;
  setError None ;;
  setIsAgentRunning true ;;
  try_catch_finally
    (* First trigger the research to update opportunities *)
    (_ <- axios research research_request ;;
     (* Then fetch the opportunities with IDs from the database *)
     response <- axios list_opportunities list_request ;;
     setOpportunities (data_or_empty response) ;;
     t <- now ;;
     setLastAnalysisTime (Some t))
    (fun err =>
       setError (Some ("Failed to fetch trading opportunities: " ++ message err)))
    (setLoading false ;;
     setIsAgentRunning false).

(** [chatInput] is the value captured by the closure: the request and the
    user message carry it although [setChatInput('')] has been called. *)
Definition sendChatMessage : M State unit :=
  st <- read ;;
  let chatInput := chatInput st in
  if negb (JS.truthy (JS.trim chatInput)) then ret tt
  else
    let userMessage := mkMessage "user" chatInput in
    setChatMessages (fun prev => (prev ++ [userMessage])%list) ;;
    setChatInput "" ;;
    try_catch
      (response <- axios chat (chat_request chatInput) ;;
       let agentMessage := mkMessage "assistant" response in
       setChatMessages (fun prev => (prev ++ [agentMessage])%list))
      (fun err =>
         let errorMessage :=
           mkMessage "assistant"
                     ("Sorry, I encountered an error: " ++ message err) in
         setChatMessages (fun prev => (prev ++ [errorMessage])%list)).

(** [const stats = {...}], derived from the store at each render. *)
Definition stats (st : State) : AppStats.t := AppStats.stats (opportunities st).

(** [disabled={loading || isAgentRunning}] on the Run Analysis button. *)
Definition runDisabled (st : State) : bool := loading st || isAgentRunning st.


Definition setSelectedOpportunity (v : option Opportunity) : M State unit :=
  set (fun st => mkState (opportunities st) (loading st) (chatMessages st)
                   (chatInput st) (error st) (isAgentRunning st)
                   (lastAnalysisTime st) (selectedTimeframe st)
                   (marketStatus st) v (isModalOpen st)).
Definition setIsModalOpen (v : bool) : M State unit :=
  set (fun st => mkState (opportunities st) (loading st) (chatMessages st)
                   (chatInput st) (error st) (isAgentRunning st)
                   (lastAnalysisTime st) (selectedTimeframe st)
                   (marketStatus st) (selectedOpportunity st) v).

Definition handleViewOpportunity (opportunity : Opportunity) : M State unit :=
  setSelectedOpportunity (Some opportunity) ;;
  setIsModalOpen true.

Definition handleCloseModal : M State unit :=
  setIsModalOpen false ;;
  setSelectedOpportunity None.

End App.

(* ================================================================== *)
(** * [Home.jsx] *)
(* ================================================================== *)

Module Home.

Record State := mkState {
  opportunities : list Opportunity;
  agentStatus : string;
  stats : HomeStats.t
}.

Definition initial : State := mkState [] "checking" HomeStats.initial.

Definition setOpportunities (v : list Opportunity) : M State unit :=
  set (fun st => mkState v (agentStatus st) (stats st)).
Definition setAgentStatus (v : string) : M State unit :=
  set (fun st => mkState (opportunities st) v (stats st)).
Definition setStats (v : HomeStats.t) : M State unit :=
  set (fun st => mkState (opportunities st) (agentStatus st) v).

#[local] Open Scope js_scope.

(** One [try] block around both requests; [console.error] receives the
    error object, logged here by its message.  The rows are those of the
    data model, whose [setup_type] is a string, on which the stats do not
    throw; [HomeServed] below has the rows as a backend may serve them. *)
Definition loadDashboardData : M State unit :=
  try_catch
    ((* Check agent health *)
     healthResponse <- axios health health_request ;;
     setAgentStatus "connected" ;;
     (* Load opportunities *)
     opportunitiesResponse <- axios list_opportunities list_request ;;
     let opps := data_or_empty opportunitiesResponse in
     setOpportunities opps ;;
     (* Calculate stats *)
     setStats (HomeStats.compute opps))
    (fun err =>
       setAgentStatus "disconnected" ;;
       console_log ["Failed to load dashboard data:"; message err]).


Definition getStatusColor (status : string) : string :=
  if status =? "connected" then "text-green-400"
  else if status =? "disconnected" then "text-red-400"
  else "text-yellow-400".

Definition getStatusText (status : string) : string :=
  if status =? "connected" then "AI Agent Connected"
  else if status =? "disconnected" then "AI Agent Offline"
  else "Checking Connection...".

End Home.

(* ================================================================== *)
(** * [Home.jsx] on rows as they are served *)
(* ================================================================== *)

(** The backend is not bound to the data model: a row may come without a
    [setup_type], or with one that is not a string.  While it computes
    the stats, [Home.jsx] calls [opp.setup_type.toLowerCase()] on each
    row, which throws a [TypeError] on such a row, inside the [try] and
    after [setOpportunities] has run.  This module is [loadDashboardData]
    on such rows; on rows of the data model it is [Home.loadDashboardData]. *)
Module HomeServed.

(** A row as served: [setup_type] is a string, or ([None]) it is missing
    or is not a string. *)
Record Row := mkRow {
  id : option Z;
  ticker : string;
  setup_type : option string;
  price : option JS.number;
  confidence_score : JS.number
}.

Definition of_opportunity (opp : Opportunity) : Row :=
  match opp with
  | mkOpportunity i t s p c => mkRow i t (Some s) p c
  end.

Definition to_opportunity (row : Row) : option Opportunity :=
  match setup_type row with
  | Some s => Some (mkOpportunity (id row) (ticker row) s (price row)
                                  (confidence_score row))
  | None => None
  end.

(** [opp.setup_type.toLowerCase().includes(a) ||
     opp.setup_type.toLowerCase().includes(b)]; [None] is the [TypeError]. *)
Definition keywords (a b : string) (row : Row) : option bool :=
  match setup_type row with
  | Some s =>
      Some (JS.includes (JS.toLowerCase s) a || JS.includes (JS.toLowerCase s) b)
  | None => None
  end.

(** [opps.filter(test).length] for a test that may throw: the rows are
    visited from the left, and the first row on which the test throws
    ends the filter with that row's error. *)
Fixpoint count (test : Row -> option bool) (rows : list Row) : nat + Row :=
  match rows with
  | [] => inl 0
  | row :: rest =>
      match test row with
      | None => inr row
      | Some keep =>
          match count test rest with
          | inl n => inl (if keep then S n else n)
          | inr thrower => inr thrower
          end
      end
  end.

Record State := mkState {
  opportunities : list Row;
  agentStatus : string;
  stats : HomeStats.t
}.

Definition setOpportunities (v : list Row) : M State unit :=
  set (fun st => mkState v (agentStatus st) (stats st)).
Definition setAgentStatus (v : string) : M State unit :=
  set (fun st => mkState (opportunities st) v (stats st)).
Definition setStats (v : HomeStats.t) : M State unit :=
  set (fun st => mkState (opportunities st) (agentStatus st) v).

Section Engine.

(** The message of the engine's [TypeError] for a row. *)
Variable typeError : Row -> string.

(** The answers of [GET /opportunities], in rows as served. *)
Variable server : list Request -> Outcome (option (list Row)).

Definition throw {A} (e : Error) : M State A :=
  fun _ w st => (Throw e, w, st).

#[local] Open Scope js_scope.

(** The object literal handed to [setStats]: its four fields are
    evaluated in order, and the first [TypeError] ends the evaluation. *)
Definition computeStats (opps : list Row) : M State HomeStats.t :=
  let totalOpportunities := length opps in
  let highConfidence :=
    length (List.filter (fun opp => JS.gt (confidence_score opp) 0.7) opps) in
  match count (keywords "bullish" "momentum") opps with
  | inr thrower => throw (mkError (typeError thrower))
  | inl bullishSetups =>
      match count (keywords "short" "bear") opps with
      | inr thrower => throw (mkError (typeError thrower))
      | inl bearishSetups =>
          ret (HomeStats.mk totalOpportunities highConfidence
                            bullishSetups bearishSetups)
      end
  end.

Definition loadDashboardData : M State unit :=
  try_catch
    ((* Check agent health *)
     healthResponse <- axios health health_request ;;
     setAgentStatus "connected" ;;
     (* Load opportunities *)
     opportunitiesResponse <- axios (fun _ => server) list_request ;;
     let opps := match opportunitiesResponse with
                 | Some rows => rows
                 | None => []
                 end in
     setOpportunities opps ;;
     (* Calculate stats *)
     computed <- computeStats opps ;;
     setStats computed)
    (fun err =>
       setAgentStatus "disconnected" ;;
       console_log ["Failed to load dashboard data:"; message err]).

End Engine.

End HomeServed.

(* ================================================================== *)
(** * [OpportunityDetailModal] and [TradingViewChart] *)
(* ================================================================== *)

(** The detail overlay opened by the two pages.  Its requests go to
    [GET /opportunities/{id}/details]; the answers of that endpoint are a
    parameter [server] of the operations (an answer may depend on
    everything sent so far, as for the other endpoints). *)
Module DetailModal.

(** [`${opportunity.id}`]: an id the row does not have prints as
    "undefined" (the data model has no [null] id, which would print as
    "null"). *)
Definition id_text (i : option Z) : string :=
  match i with
  | Some z => JS.integer_text z
  | None => "undefined"
  end.

Definition details_request (opportunity : Opportunity) : Request :=
  Get (API_BASE_URL ++ "/opportunities/" ++ id_text (id opportunity) ++ "/details")
      [bearer].

(** [useState({technical: false, rationale: false, chart: false, timeline: false})] *)
Definition collapsed : gmap string bool :=
  <["technical" := false]> (<["rationale" := false]>
    (<["chart" := false]> (<["timeline" := false]> ∅))).

(** [{...prev, [section]: !prev[section]}] on the object's own keys: a key
    the object does not have reads as [undefined], whose negation is
    [true] (the section headers pass the four own keys only; the names
    that every object inherits are not modelled). *)
Definition toggled (section : string) (prev : gmap string bool) : gmap string bool :=
  <[section := negb (default false (prev !! section))]> prev.

Definition formatSymbolForTradingView (ticker : option string) : string :=
  match ticker with
  | None => "NASDAQ:AAPL"
  | Some ticker =>
      if negb (JS.truthy ticker) then "NASDAQ:AAPL"
      else
        (* Handle common exchange prefixes and symbol formats *)
        let upperTicker := JS.toUpperCase ticker in
        (* If already includes exchange, return as-is *)
        if JS.includes upperTicker ":" then upperTicker
        (* Default to NASDAQ for most US stocks *)
        else "NASDAQ:" ++ upperTicker
  end.

(** [TradingViewChart]: the link under the chart,
    [`https://www.tradingview.com/symbols/${symbol.replace(':', '-')}/`]. *)
Definition chartLink (symbol : string) : string :=
  "https://www.tradingview.com/symbols/" ++ JS.replace symbol ":" "-" ++ "/".

Section Payload.

(** The details payload; the modal stores it as it comes ([None] is a
    [null] body). *)
Variable Details : Type.

Record State := mkState {
  details : option Details;
  loading : bool;
  error : option string;
  expandedSections : gmap string bool;
  isMobile : bool
}.

Definition initial : State := mkState None false None collapsed false.

Definition setDetails (v : option Details) : M State unit :=
  set (fun st => mkState v (loading st) (error st) (expandedSections st) (isMobile st)).
Definition setLoading (v : bool) : M State unit :=
  set (fun st => mkState (details st) v (error st) (expandedSections st) (isMobile st)).
Definition setError (v : option string) : M State unit :=
  set (fun st => mkState (details st) (loading st) v (expandedSections st) (isMobile st)).
Definition setExpandedSections (f : gmap string bool -> gmap string bool) : M State unit :=
  set (fun st => mkState (details st) (loading st) (error st)
                   (f (expandedSections st)) (isMobile st)).
Definition setIsMobile (v : bool) : M State unit :=
  set (fun st => mkState (details st) (loading st) (error st) (expandedSections st) v).

#[local] Open Scope js_scope.

(** The console receives the labels and the texts; the objects logged
    beside them (the payload, the error's [response]) have no text in the
    model and are left out of the entries.  The request is answered
    within the operation: this is a fetch during which no other handler
    runs.  Its two halves, between which other handlers may run, are
    [fetchStart] and [fetchSettle] below. *)
Definition fetchOpportunityDetails
    (server : list Request -> Outcome (option Details))
    (opportunity : Opportunity) : M State unit :=
  setLoading true ;;
  setError None ;;
  try_catch_finally
    (console_log ["Fetching details for opportunity:"; id_text (id opportunity)] ;;
     response <- axios (fun _ => server) (details_request opportunity) ;;
     console_log ["API Response:"] ;;
     setDetails response)
    (fun err =>
       console_log ["Full error details:"; message err] ;;
       console_log ["Error response:"] ;;
       setError (Some ("Failed to load opportunity details: " ++ message err)))
    (setLoading false).

(** An async function runs up to its [await] in one go and its
    continuation runs when the answer arrives; handlers of other events,
    a second fetch included, may run in between.  [fetchStart] is
    [fetchOpportunityDetails] up to the [await], the request being on its
    way, and [fetchSettle] is what runs when the request is answered:
    the rest of the [try], or the [catch], and the [finally].  Nothing in
    the continuation compares the row asked for with the row now open. *)
Definition send (request : Request) : M State unit :=
  fun _ w st => (Normal tt, {| sent := sent w ++ [request]; console := console w |}, st).

Definition settle (answer : Outcome (option Details)) : M State (option Details) :=
  fun _ w st =>
    match answer with
    | Resolved data => (Normal data, w, st)
    | Rejected msg => (Throw (mkError msg), w, st)
    end.

Definition fetchStart (opportunity : Opportunity) : M State unit :=
  setLoading true ;;
  setError None ;;
  console_log ["Fetching details for opportunity:"; id_text (id opportunity)] ;;
  send (details_request opportunity).

Definition fetchSettle (answer : Outcome (option Details)) : M State unit :=
  try_catch_finally
    (response <- settle answer ;;
     console_log ["API Response:"] ;;
     setDetails response)
    (fun err =>
       console_log ["Full error details:"; message err] ;;
       console_log ["Error response:"] ;;
       setError (Some ("Failed to load opportunity details: " ++ message err)))
    (setLoading false).

(** The effect that runs when [isOpen] or [opportunity] changes. *)
Definition openEffect
    (server : list Request -> Outcome (option Details))
    (opportunity : option Opportunity) (isOpen : bool) : M State unit :=
  console_log ["Modal opened with opportunity:"] ;;
  match opportunity with
  | Some opp =>
      if isOpen
      then console_log ["Opportunity ID:"; id_text (id opp)] ;;
           fetchOpportunityDetails server opp
      else ret tt
  | None => ret tt
  end.

Definition toggleSection (section : string) : M State unit :=
  setExpandedSections (toggled section).

(** How the render reads a flag ([expandedSections.chart ? ... : ...],
    [expandedSections.chart && ...]): a key the object lacks is falsy. *)
Definition isExpanded (section : string) (st : State) : bool :=
  default false (expandedSections st !! section).

(** [checkMobile], given [window.innerWidth]. *)
Definition checkMobile (innerWidth : Z) : M State unit :=
  setIsMobile (innerWidth <? 768)%Z.

(** What the overlay shows: nothing when closed; otherwise the spinner,
    the error block, the content, or an empty body, in this order of
    precedence ([loading ? ... : error ? ... : details ? ... : null]). *)
Inductive View :=
| Closed
| Spinner
| ErrorBlock (text : string)
| Content (payload : Details)
| Empty.

Definition view (isOpen : bool) (st : State) : View :=
  if negb isOpen then Closed
  else if loading st then Spinner
  else match error st with
       | Some text =>
           if JS.truthy text then ErrorBlock text
           else match details st with Some d => Content d | None => Empty end
       | None => match details st with Some d => Content d | None => Empty end
       end.

End Payload.

Arguments mkState {Details} _ _ _ _ _.
Arguments details {Details} _.
Arguments loading {Details} _.
Arguments error {Details} _.
Arguments expandedSections {Details} _.
Arguments isMobile {Details} _.
Arguments initial {Details}.
Arguments fetchOpportunityDetails {Details} _ _.
Arguments send {Details} _.
Arguments settle {Details} _.
Arguments fetchStart {Details} _.
Arguments fetchSettle {Details} _.
Arguments openEffect {Details} _ _ _.
Arguments toggleSection {Details} _.
Arguments isExpanded {Details} _ _.
Arguments checkMobile {Details} _.
Arguments view {Details} _ _.
Arguments Closed {Details}.
Arguments Spinner {Details}.
Arguments ErrorBlock {Details} _.
Arguments Content {Details} _.
Arguments Empty {Details}.

End DetailModal.

(* ================================================================== *)
(** * Notions used to state the properties *)
(* ================================================================== *)

(** ** Sample data *)

(** The scenario store of the specification. *)
Definition AAPL : Opportunity :=
  mkOpportunity (Some 1%Z) "AAPL" "Bullish Momentum" None 0.85.
Definition TSLA : Opportunity :=
  mkOpportunity (Some 2%Z) "TSLA" "Short Squeeze" None 0.55.

(** A row whose confidence is exactly 0.7. *)
Definition borderline : Opportunity :=
  mkOpportunity (Some 3%Z) "MSFT" "Breakout" None 0.7.

(** A backend whose list endpoint answers with status 500, everything else
    being in order. *)
Definition list_fails : Env :=
  mkEnv (mkBackend (fun _ => Resolved "{status: healthy}")
                   (fun _ => Rejected "Request failed with status code 500")
                   (fun _ => Resolved [])
                   (fun _ => Resolved "Hello"))
        "9:30:00 AM".

(** A backend that serves the two scenario rows; its trigger answers with
    a row that has no id yet. *)
Definition serves_scenario : Env :=
  mkEnv (mkBackend (fun _ => Resolved "{status: healthy}")
                   (fun _ => Resolved (Some [AAPL; TSLA]))
                   (fun _ => Resolved [mkOpportunity None "AAPL" "Bullish Momentum" None 0.85])
                   (fun _ => Resolved "Hello"))
        "9:30:00 AM".

(** Nothing sent, nothing logged. *)
Definition quiet : World := mkWorld [] [].

(** The [App] state with three spaces typed in the chat box. *)
Definition blank_input : App.State :=
  App.mkState [AAPL] false [App.mkMessage "user" "hi"] "   " None false None
              "1D" "OPEN" None false.

(** ** Strings *)

Fixpoint all_whitespace (s : string) : bool :=
  match s with
  | EmptyString => true
  | String c s' => JS.isWhiteSpace c && all_whitespace s'
  end.

(** ** Rows *)

(** Equality of rows is decidable (numbers by bit-for-bit equality). *)
#[local] Instance number_eq_dec : EqDecision JS.number.
Proof.
  intros x y. destruct (PrimFloat.Leibniz.eqb x y) eqn:E.
  - left. now apply FloatAxioms.Leibniz.eqb_spec.
  - right. intros H. apply FloatAxioms.Leibniz.eqb_spec in H. congruence.
Defined.

#[local] Instance string_eq_dec : EqDecision string := String.string_dec.

#[local] Instance Opportunity_eq_dec : EqDecision Opportunity.
Proof. solve_decision. Defined.

(** ** The filter *)

(** The partition by the 0.7 threshold, on one store and search term:
    under the "high-confidence" filter the result holds rows at or above
    0.7, and every row left out is below 0.7. *)
Definition threshold_partition (store : list Opportunity) (searchTerm : string) : Prop :=
  let result := Filter.filteredOpportunities store searchTerm "high-confidence" in
  (forall opp, In opp result -> JS.ge (confidence_score opp) 0.7 = true)
  /\ (forall opp, In opp store -> ~ In opp result ->
                  JS.lt (confidence_score opp) 0.7 = true).

(** ** The stats *)

(** The number of rows of a store at or above the 0.7 cutoff. *)
Definition at_least_070 (store : list Opportunity) : nat :=
  length (List.filter (fun opp => JS.ge (confidence_score opp) 0.7) store).

(** The sum of a list of numbers, taken from the left starting at 0. *)
Definition sum (l : list JS.number) : JS.number :=
  fold_left PrimFloat.add l 0%float.

Definition percent (opp : Opportunity) : JS.number :=
  (confidence_score opp * 100)%float.

(** ** Binary64 rounding *)

(** [M / 2^n] rounded to the nearest integer, ties to even. *)
Definition rne (M n : Z) : Z :=
  let q := (M / 2 ^ n)%Z in
  let r := (M mod 2 ^ n)%Z in
  if (2 * r <? 2 ^ n)%Z then q
  else if (2 ^ n <? 2 * r)%Z then (q + 1)%Z
  else if Z.even q then q else (q + 1)%Z.

(** The shift register of the IEEE specification after [k] shifts of the
    mantissa [M]: the quotient, the round bit and the sticky bit. *)
Definition shifted (M : Z) (k : Z) (R : shr_record) : Prop :=
  (shr_m R = M / 2 ^ k
   /\ (shr_r R = true <-> 2 ^ k <= 2 * (M mod 2 ^ k))
   /\ (shr_s R = true <-> 2 * (M mod 2 ^ k) <> (if shr_r R then 2 ^ k else 0)))%Z.

(** The binary64 number with mantissa [q <= 2^53] at exponent [e']: a
    mantissa of 2^53 moves to the next exponent, and an exponent above 971
    overflows. *)
Definition rounded (q e' : Z) : spec_float :=
  if (q =? 0)%Z then S754_zero false
  else if (q <? 2 ^ 53)%Z then
    if (e' <=? 971)%Z then S754_finite false (Z.to_pos q) e' else S754_infinity false
  else
    if (e' + 1 <=? 971)%Z then S754_finite false (Z.to_pos (2 ^ 52)) (e' + 1)
    else S754_infinity false.

(** The mantissas of 0.7 (at exponent -53), 70 and 100 (at exponent -46). *)
Definition m07 : positive := 6305039478318694.
Definition m70 : positive := 4925812092436480.
Definition m100 : positive := 7036874417766400.

(** A finite binary64 value as a fraction [num / den]. *)
Definition fraction (x : spec_float) : option (Z * Z) :=
  match x with
  | S754_zero _ => Some (0, 1)%Z
  | S754_finite s m e =>
      if (0 <=? e)%Z then Some (cond_Zopp s (Zpos m * 2 ^ e), 1)%Z
      else Some (cond_Zopp s (Zpos m), 2 ^ (- e))%Z
  | _ => None
  end.

(** The integer a binary64 value stands for, when it is one. *)
Definition integer_value (x : spec_float) : option Z :=
  match x with
  | S754_zero _ => Some 0%Z
  | S754_finite s m e =>
      if (0 <=? e)%Z then Some (cond_Zopp s (Zpos m * 2 ^ e))
      else if (Zpos m mod 2 ^ (- e) =? 0)%Z
           then Some (cond_Zopp s (Zpos m / 2 ^ (- e)))
           else None
  | _ => None
  end.

(** [x] is the mean of [l]: the sum of [l] divided by the number whose
    value is the integer [length l]. *)
Definition is_mean (l : list JS.number) (x : JS.number) : Prop :=
  exists count : JS.number,
    integer_value (Prim2SF count) = Some (Z.of_nat (length l))
    /\ x = (sum l / count)%float.

(** ** Computations *)

(** The three components of a finished computation. *)
Definition completion {S A} (r : Completion A * World * S) : Completion A := fst (fst r).
Definition world {S A} (r : Completion A * World * S) : World := snd (fst r).
Definition state {S A} (r : Completion A * World * S) : S := snd r.

(** What one run of [runTechnicalAnalysis] does to the request log and to
    the store, for a component with state [S] and the two requests
    [trigger] and [listing]: the trigger is sent first; the store is
    replaced, by the body of the list answer, only when both requests
    resolve. *)
Definition trigger_then_list {S} (trigger listing : Request) (run : M S unit)
    (store : S -> list Opportunity) (err : S -> option string)
    (env : Env) (w : World) (st : S) : Prop :=
  let r := run env w st in
  let log1 := (sent w ++ [trigger])%list in
  let log2 := (log1 ++ [listing])%list in
  match research (backend env) log1 with
  | Rejected _ =>
      sent (world r) = log1 /\ store (state r) = store st /\ err (state r) <> None
  | Resolved _ =>
      sent (world r) = log2
      /\ match list_opportunities (backend env) log2 with
         | Resolved data =>
             store (state r) = data_or_empty data /\ err (state r) = None
         | Rejected _ =>
             store (state r) = store st /\ err (state r) <> None
         end
  end.

(** The list endpoint of [env] answers with rows that all carry an id. *)
Definition serves_ids (env : Env) : Prop :=
  forall log rows,
    list_opportunities (backend env) log = Resolved (Some rows) ->
    Forall has_id rows.

(** An operation surfaces a failure in the UI: the store is kept, an error
    message that mentions "opportunities" is in the UI state, and nothing
    is thrown. *)
Definition failure_surfaces {S} (op : M S unit)
    (store : S -> list Opportunity) (err : S -> option string)
    (env : Env) (w : World) (st : S) : Prop :=
  let r := op env w st in
  store (state r) = store st
  /\ (exists m, err (state r) = Some m /\ JS.includes m "opportunities" = true)
  /\ completion r = Normal tt.

(** The failing list fetch of a run: the trigger resolved, the list
    request that follows it was rejected with [msg]. *)
Definition list_fetch_of_run_fails (env : Env) (w : World) (msg : string) : Prop :=
  (exists rows, research (backend env) (sent w ++ [research_request])%list
                = Resolved rows)
  /\ list_opportunities (backend env)
       ((sent w ++ [research_request]) ++ [list_request])%list = Rejected msg.

(** ** The detail overlay of the pages *)

(** The modal cells agree: the overlay is open exactly when a row is
    selected. *)
Definition page_modal_consistent (st : OpportunitiesPage.State) : Prop :=
  OpportunitiesPage.isModalOpen st = true
  <-> OpportunitiesPage.selectedOpportunity st <> None.

Definition app_modal_consistent (st : App.State) : Prop :=
  App.isModalOpen st = true <-> App.selectedOpportunity st <> None.

(** ** Rows *)

(** The id of a row is truthy: present and not 0. *)
Definition truthy_id (opp : Opportunity) : Prop :=
  exists i : Z, id opp = Some i /\ i <> 0%Z.

(** The row has an id, and the id is a safe integer: a number, which a
    template literal prints with all its digits. *)
Definition printed_in_full (opp : Opportunity) : Prop :=
  exists i : Z, id opp = Some i /\ (Z.abs i < 2 ^ 53)%Z.

(** ** Rows as served *)

(** The row carries a [setup_type] that is a string. *)
Definition carries_setup_type (row : HomeServed.Row) : bool :=
  match HomeServed.setup_type row with
  | Some _ => true
  | None => false
  end.

(** The first row, if any, on which the stats of the Home page throw. *)
Definition first_thrower (rows : list HomeServed.Row) : option HomeServed.Row :=
  List.find (fun row => negb (carries_setup_type row)) rows.

(** A state and a list endpoint of the data model, in rows as served. *)
Definition served_state (st : Home.State) : HomeServed.State :=
  HomeServed.mkState (map HomeServed.of_opportunity (Home.opportunities st))
                     (Home.agentStatus st) (Home.stats st).

Definition served_by (env : Env)
  : list Request -> Outcome (option (list HomeServed.Row)) :=
  fun log =>
    match list_opportunities (backend env) log with
    | Resolved data => Resolved (option_map (map HomeServed.of_opportunity) data)
    | Rejected msg => Rejected msg
    end.

(** A sequence of clicks on section headers of the overlay. *)
Fixpoint clicks {Details : Type} (sections : list string)
  : M (DetailModal.State Details) unit :=
  match sections with
  | [] => ret tt
  | section :: rest => bind (DetailModal.toggleSection section) (fun _ => clicks rest)
  end.

(** How many of the clicks hit [section]. *)
Definition hits (section : string) (sections : list string) : nat :=
  length (List.filter (String.eqb section) sections).

(** The ticker of a row, when there is one, stays within the code units
    on which the model of [toUpperCase] is exact. *)
Definition ticker_in_model (ticker : option string) : Prop :=
  match ticker with
  | Some s => JS.upper_in_model s = true
  | None => True
  end.

(* ================================================================== *)
(** * Binary64 arithmetic *)
(* ================================================================== *)

Section Comparison.

(** The comparison of the IEEE specification is antisymmetric. *)
Lemma SFcompare_swap (a b : spec_float) :
  SFcompare b a = option_map CompOpp (SFcompare a b).
Proof.
  destruct a as [sa|sa| |sa ma ea], b as [sb|sb| |sb mb eb]; simpl;
    try reflexivity;
    try (destruct sa; reflexivity);
    try (destruct sb; reflexivity);
    try (destruct sa, sb; reflexivity).
  destruct sa, sb; simpl; try reflexivity.
  - rewrite (Z.compare_antisym ea eb).
    destruct (ea ?= eb)%Z; simpl; try reflexivity.
    rewrite (Pos.compare_cont_antisym ma mb Eq). simpl.
    now rewrite ?CompOpp_involutive.
  - rewrite (Z.compare_antisym ea eb).
    destruct (ea ?= eb)%Z; simpl; try reflexivity.
    rewrite (Pos.compare_cont_antisym ma mb Eq). simpl.
    now rewrite ?CompOpp_involutive.
Qed.

Lemma is_nan_false (x : float) :
  is_nan x = false -> Prim2SF x <> S754_nan.
Proof.
  unfold is_nan. rewrite FloatAxioms.eqb_spec. intros H E. rewrite E in H. discriminate.
Qed.

(** On numbers that are not NaN, the negation of [x >= y] is [x < y]. *)
Lemma not_ge_lt (x y : JS.number) :
  is_nan x = false -> is_nan y = false ->
  JS.ge x y = false -> JS.lt x y = true.
Proof.
  intros Hx Hy. apply is_nan_false in Hx. apply is_nan_false in Hy.
  unfold JS.ge, JS.lt. rewrite FloatAxioms.leb_spec, FloatAxioms.ltb_spec.
  unfold SFleb, SFltb. rewrite (SFcompare_swap (Prim2SF x) (Prim2SF y)).
  destruct (Prim2SF x) as [sa|sa| |sa ma ea] eqn:Ex; [| |congruence|];
    destruct (Prim2SF y) as [sb|sb| |sb mb eb] eqn:Ey; try congruence;
    match goal with
    | |- context [SFcompare ?a ?b] => destruct (SFcompare a b) as [[]|] eqn:E
    end; simpl; try congruence; simpl in E;
    repeat match type of E with
           | context [if ?s then _ else _] => destruct s
           | context [match ?s with _ => _ end] => destruct s
           end; discriminate.
Qed.

(** [x >= y] and [x < y] exclude each other. *)
Lemma ge_lt_excl (x y : JS.number) :
  JS.ge x y = true -> JS.lt x y = false.
Proof.
  unfold JS.ge, JS.lt. rewrite FloatAxioms.leb_spec, FloatAxioms.ltb_spec.
  unfold SFleb, SFltb. rewrite (SFcompare_swap (Prim2SF x) (Prim2SF y)).
  destruct (SFcompare (Prim2SF x) (Prim2SF y)) as [[]|]; simpl; congruence.
Qed.

End Comparison.

(** Multiplication by 100 and the cutoff: the product [x * 100], rounded
    to binary64, is at least 70 exactly when [x] is at least 0.7.  The
    proof goes through the IEEE specification of the multiplication: the
    exact product of the mantissas is shifted right and rounded to the
    nearest even. *)
Section Cutoff.

#[local] Open Scope Z_scope.


Lemma iter_pos_nat {A} (f : A -> A) (p : positive) (x : A) :
  SpecFloat.iter_pos f p x = Nat.iter (Pos.to_nat p) f x.
Proof.
  revert x. induction p as [p IH|p IH|]; intros x; cbn [SpecFloat.iter_pos].
  - rewrite !IH, Pos2Nat.inj_xI.
    replace (2 * Pos.to_nat p)%nat with (Pos.to_nat p + Pos.to_nat p)%nat by lia.
    rewrite Nat.iter_succ_r, Nat.iter_add. reflexivity.
  - rewrite !IH, Pos2Nat.inj_xO.
    replace (2 * Pos.to_nat p)%nat with (Pos.to_nat p + Pos.to_nat p)%nat by lia.
    rewrite Nat.iter_add. reflexivity.
  - reflexivity.
Qed.

Lemma shr_1_nonneg (m : Z) (r s : bool) :
  0 <= m ->
  shr_1 (Build_shr_record m r s) = Build_shr_record (m / 2) (Z.odd m) (r || s).
Proof.
  intros Hm. rewrite <- Z.div2_div.
  destruct m as [|[p|p|]|]; try reflexivity. lia.
Qed.


Lemma bool_iff_cases (b : bool) (P : Prop) :
  (b = true <-> P) -> (b = true /\ P) \/ (b = false /\ ~ P).
Proof. destruct b; intros [H1 H2]; [left|right]; split; auto. intros HP. specialize (H2 HP). discriminate. Qed.

Lemma shifted_step (M k : Z) (R : shr_record) :
  0 <= M -> 0 <= k -> shifted M k R -> shifted M (k + 1) (shr_1 R).
Proof.
  intros HM Hk (Hm & Hr & Hs). destruct R as [m r s]. cbn [shr_m shr_r shr_s] in Hm, Hr, Hs.
  assert (H2k : 0 < 2 ^ k) by (apply Z.pow_pos_nonneg; lia).
  assert (Hm0 : 0 <= m) by (subst m; apply Z.div_pos; lia).
  rewrite shr_1_nonneg by assumption.
  assert (Hpow : 2 ^ (k + 1) = 2 * 2 ^ k) by (rewrite Z.pow_add_r by lia; lia).
  assert (Hdiv : M / 2 ^ (k + 1) = m / 2).
  { rewrite Hpow, Z.mul_comm, <- Z.div_div by lia. now rewrite Hm. }
  assert (Hmod : M mod 2 ^ (k + 1) = (m mod 2) * 2 ^ k + M mod 2 ^ k).
  { rewrite Hpow, Z.mul_comm, Z.rem_mul_r by lia. rewrite Hm. lia. }
  pose proof (Z.mod_pos_bound M (2 ^ k) H2k) as Hb.
  pose proof (Zmod_odd m) as Hodd.
  unfold shifted. cbn [shr_m shr_r shr_s]. rewrite Hdiv, Hmod, Hpow.
  split; [reflexivity|].
  apply bool_iff_cases in Hr. apply bool_iff_cases in Hs.
  destruct (Z.odd m); rewrite Hodd;
    (split; [split; [lia||reflexivity|lia||discriminate||reflexivity]|]);
    destruct Hr as [[-> Hr]|[-> Hr]], Hs as [[-> Hs]|[-> Hs]]; cbn [orb];
    split; intros; try lia; try discriminate; try reflexivity.
Qed.

Lemma shifted_iter (M : Z) (k : nat) :
  0 <= M ->
  shifted M (Z.of_nat k) (Nat.iter k shr_1 (Build_shr_record M false false)).
Proof.
  intros HM. induction k as [|k IH].
  - unfold shifted. cbn [Nat.iter Z.of_nat shr_m shr_r shr_s nat_rect].
    rewrite Z.pow_0_r, Z.div_1_r, Z.mod_1_r.
    repeat split; intros; try lia; discriminate.
  - rewrite Nat2Z.inj_succ, <- Z.add_1_r. cbn [Nat.iter nat_rect].
    apply shifted_step; [assumption|lia|exact IH].
Qed.


Lemma shifted_round (M n : Z) (R : shr_record) :
  shifted M n R ->
  round_nearest_even (shr_m R) (loc_of_shr_record R) = rne M n.
Proof.
  intros (Hm & Hr & Hs). unfold rne. cbv zeta. rewrite <- Hm.
  apply bool_iff_cases in Hr. apply bool_iff_cases in Hs.
  destruct R as [m r s]. cbn [shr_m shr_r shr_s] in *.
  destruct Hr as [[-> Hr]|[-> Hr]], Hs as [[-> Hs]|[-> Hs]];
    cbn [loc_of_shr_record round_nearest_even].
  - destruct (Z.ltb_spec (2 * (M mod 2 ^ n)) (2 ^ n)); [lia|].
    destruct (Z.ltb_spec (2 ^ n) (2 * (M mod 2 ^ n))); [reflexivity|lia].
  - destruct (Z.ltb_spec (2 * (M mod 2 ^ n)) (2 ^ n)); [lia|].
    destruct (Z.ltb_spec (2 ^ n) (2 * (M mod 2 ^ n))); [lia|reflexivity].
  - destruct (Z.ltb_spec (2 * (M mod 2 ^ n)) (2 ^ n)); [reflexivity|lia].
  - destruct (Z.ltb_spec (2 * (M mod 2 ^ n)) (2 ^ n)); [reflexivity|lia].
Qed.

(** [shr] by a positive amount, then rounding. *)
Lemma shr_round (M e n : Z) :
  0 <= M -> 0 < n ->
  exists R, shr (Build_shr_record M false false) e n = (R, e + n)
            /\ round_nearest_even (shr_m R) (loc_of_shr_record R) = rne M n.
Proof.
  intros HM Hn. destruct n as [|p|p]; try lia.
  unfold shr. eexists. split; [reflexivity|].
  apply shifted_round. rewrite iter_pos_nat.
  rewrite <- (positive_nat_Z p). now apply shifted_iter.
Qed.

Lemma rne_spec (M n : Z) :
  0 <= M -> 0 <= n ->
  exists Q Rm,
    M = 2 ^ n * Q + Rm /\ 0 <= Rm < 2 ^ n /\ 0 <= Q
    /\ (rne M n = Q \/ rne M n = Q + 1)
    /\ (2 * Rm < 2 ^ n -> rne M n = Q)
    /\ (2 ^ n < 2 * Rm -> rne M n = Q + 1).
Proof.
  intros HM Hn.
  assert (H2n : 0 < 2 ^ n) by (apply Z.pow_pos_nonneg; lia).
  exists (M / 2 ^ n), (M mod 2 ^ n).
  pose proof (Z.div_mod M (2 ^ n) ltac:(lia)) as Hdm.
  pose proof (Z.mod_pos_bound M (2 ^ n) H2n) as Hb.
  assert (0 <= M / 2 ^ n) by (apply Z.div_pos; lia).
  unfold rne. cbv zeta.
  destruct (Z.ltb_spec (2 * (M mod 2 ^ n)) (2 ^ n));
    [|destruct (Z.ltb_spec (2 ^ n) (2 * (M mod 2 ^ n)));
      [|destruct (Z.even (M / 2 ^ n))]];
    repeat split; auto; try lia.
Qed.

Lemma digits2_bounds (p : positive) :
  2 ^ (Zpos (digits2_pos p) - 1) <= Zpos p < 2 ^ Zpos (digits2_pos p).
Proof.
  induction p as [p IH|p IH|]; cbn [digits2_pos].
  - rewrite Pos2Z.inj_succ, Z.pow_succ_r by lia.
    replace (Z.succ (Zpos (digits2_pos p)) - 1) with (Z.succ (Zpos (digits2_pos p) - 1)) by lia.
    rewrite Z.pow_succ_r by lia. lia.
  - rewrite Pos2Z.inj_succ, Z.pow_succ_r by lia.
    replace (Z.succ (Zpos (digits2_pos p)) - 1) with (Z.succ (Zpos (digits2_pos p) - 1)) by lia.
    rewrite Z.pow_succ_r by lia. lia.
  - simpl. lia.
Qed.

Lemma digits2_le (p : positive) (k : Z) :
  Zpos p < 2 ^ k -> Zpos (digits2_pos p) <= k.
Proof.
  intros H. pose proof (digits2_bounds p) as [Hl _].
  destruct (Z_le_gt_dec (Zpos (digits2_pos p)) k) as [|Hgt]; [assumption|exfalso].
  assert (2 ^ k <= 2 ^ (Zpos (digits2_pos p) - 1)) by (apply Z.pow_le_mono_r; lia).
  lia.
Qed.

Lemma digits2_gt (p : positive) (k : Z) :
  0 <= k -> 2 ^ k <= Zpos p -> k < Zpos (digits2_pos p).
Proof.
  intros Hk H. pose proof (digits2_bounds p) as [_ Hu].
  destruct (Z_lt_ge_dec k (Zpos (digits2_pos p))) as [|Hge]; [assumption|exfalso].
  assert (2 ^ Zpos (digits2_pos p) <= 2 ^ k) by (apply Z.pow_le_mono_r; lia).
  lia.
Qed.


Lemma fexp64 (k : Z) : fexp prec emax k = Z.max (k - 53) (-1074).
Proof. reflexivity. Qed.

Lemma shr_none (m e n : Z) :
  n <= 0 -> shr (Build_shr_record m false false) e n = (Build_shr_record m false false, e).
Proof. destruct n; try reflexivity. lia. Qed.

Lemma binary_round_aux_shift (M : positive) (ex : Z) :
  let e' := fexp prec emax (Zpos (digits2_pos M) + ex) in
  0 < e' - ex ->
  binary_round_aux prec emax false (Zpos M) ex loc_Exact
  = rounded (rne (Zpos M) (e' - ex)) e'
  /\ 0 <= rne (Zpos M) (e' - ex) <= 2 ^ 53.
Proof.
  intros e' Hn.
  pose proof (digits2_bounds M) as [Hdl Hdu].
  assert (He' : e' = Z.max (Zpos (digits2_pos M) + ex - 53) (-1074)) by reflexivity.
  set (d := Zpos (digits2_pos M)) in *. clearbody e'.
  assert (Hq : 0 <= rne (Zpos M) (e' - ex) <= 2 ^ 53).
  { destruct (rne_spec (Zpos M) (e' - ex) ltac:(lia) ltac:(lia))
      as (Q & Rm & HM & HR & HQ & Hcases & _).
    assert (H2n : 0 < 2 ^ (e' - ex)) by (apply Z.pow_pos_nonneg; lia).
    assert (Hle : 2 ^ d <= 2 ^ (e' - ex) * 2 ^ 53).
    { rewrite <- Z.pow_add_r by lia. apply Z.pow_le_mono_r; lia. }
    assert (Q < 2 ^ 53) by nia.
    lia. }
  split; [|exact Hq].
  unfold binary_round_aux, shr_fexp.
  cbn [Zdigits2 shr_record_of_loc]. fold d. rewrite fexp64, <- He'.
  destruct (shr_round (Zpos M) ex (e' - ex) ltac:(lia) Hn) as (R & -> & ->).
  replace (ex + (e' - ex)) with e' by lia.
  set (q := rne (Zpos M) (e' - ex)) in *.
  unfold rounded.
  destruct (Z.eqb_spec q 0) as [->|Hq0].
  - cbn [Zdigits2]. rewrite fexp64, shr_none by lia. reflexivity.
  - destruct (Z.ltb_spec q (2 ^ 53)) as [Hlt|Hge].
    + destruct q as [|qp|qp] eqn:Eq; try lia.
      cbn [Zdigits2]. rewrite fexp64.
      pose proof (digits2_le qp 53 Hlt).
      rewrite shr_none by lia. reflexivity.
    + assert (q = 2 ^ 53) as -> by lia.
      change (Zdigits2 (2 ^ 53)) with 54. rewrite fexp64.
      replace (Z.max (54 + e' - 53) (-1074) - e') with 1 by lia.
      reflexivity.
Qed.

Lemma SFleb_pos_finite (m1 m2 : positive) (e1 e2 : Z) :
  SFleb (S754_finite false m1 e1) (S754_finite false m2 e2) = true
  <-> e1 < e2 \/ (e1 = e2 /\ Zpos m1 <= Zpos m2).
Proof.
  unfold SFleb, SFcompare.
  destruct (Z.compare_spec e1 e2) as [->|H|H].
  - rewrite Pos.compare_cont_spec. cbn [Pos.switch_Eq].
    destruct (Pos.compare_spec m1 m2) as [->|H|H];
      split; intros; try reflexivity; try discriminate; lia.
  - split; [intros _; lia|reflexivity].
  - split; [discriminate|lia].
Qed.


Example binary64_constants :
  Prim2SF 0.7 = S754_finite false m07 (-53)
  /\ Prim2SF 70 = S754_finite false m70 (-46)
  /\ Prim2SF 100 = S754_finite false m100 (-46).
Proof. repeat split. Qed.

Lemma SFleb_70_rounded (q e' : Z) :
  0 <= q <= 2 ^ 53 ->
  SFleb (S754_finite false m70 (-46)) (rounded q e') = true
  <-> 0 < q /\ (-46 < e' \/ (e' = -46 /\ Zpos m70 <= q)).
Proof.
  intros Hq. unfold rounded.
  destruct (Z.eqb_spec q 0) as [->|Hq0].
  - split; [discriminate|lia].
  - destruct (Z.ltb_spec q (2 ^ 53)) as [Hlt|Hge].
    + destruct (Z.leb_spec e' 971).
      * rewrite SFleb_pos_finite, Z2Pos.id by lia.
        change (2 ^ 53) with 9007199254740992 in *. lia.
      * split; [lia|reflexivity].
    + assert (q = 2 ^ 53) as -> by lia.
      destruct (Z.leb_spec (e' + 1) 971).
      * rewrite SFleb_pos_finite. unfold m70.
        change (Z.pos (Z.to_pos (2 ^ 52))) with 4503599627370496.
        change (2 ^ 53) with 9007199254740992 in *. lia.
      * split; [lia|reflexivity].
Qed.

(** The positive finite case: [fl(x * 100) >= 70] exactly when [x >= 0.7]. *)
Lemma cutoff_positive (m : positive) (e : Z) :
  bounded prec emax m e = true ->
  SFleb (S754_finite false m70 (-46))
        (binary_round_aux prec emax false (Zpos (m * m100)) (e + -46) loc_Exact)
  = SFleb (S754_finite false m07 (-53)) (S754_finite false m e).
Proof.
  intros Hb. unfold bounded, canonical_mantissa in Hb.
  apply andb_prop in Hb as [Hc He]. apply Z.eqb_eq in Hc. apply Z.leb_le in He.
  rewrite fexp64 in Hc. change (emax - prec) with 971 in He.
  pose proof (digits2_bounds m) as [Hml Hmu].
  set (dm := Zpos (digits2_pos m)) in *.
  assert (Hdm : dm <= 53) by lia.
  assert (Hm53 : Zpos m < 2 ^ 53).
  { eapply Z.lt_le_trans; [exact Hmu|]. apply Z.pow_le_mono_r; lia. }
  pose proof (digits2_bounds (m * m100)) as [HMl HMu].
  pose proof (binary_round_aux_shift (m * m100) (e + -46)) as Hround.
  cbv zeta in Hround. rewrite fexp64 in Hround.
  set (d := Zpos (digits2_pos (m * m100))) in *.
  assert (HM : Zpos (m * m100) = Zpos m * 7036874417766400) by reflexivity.
  change (2 ^ 53) with 9007199254740992 in Hm53.
  assert (Hd106 : d <= 106).
  { apply digits2_le. change (2 ^ 106) with (9007199254740992 * 9007199254740992). nia. }
  assert (Hd53 : 52 < d).
  { apply digits2_gt; [lia|]. change (2 ^ 52) with 4503599627370496. lia. }
  (* the shift is positive *)
  assert (Hnormal : -1074 < e -> 104 < d).
  { intros Hn. assert (dm = 53) by lia.
    apply digits2_gt; [lia|].
    replace (dm - 1) with 52 in Hml by lia.
    change (2 ^ 52) with 4503599627370496 in Hml.
    change (2 ^ 104) with 20282409603651670423947251286016. lia. }
  set (e' := Z.max (d + (e + -46) - 53) (-1074)) in *.
  assert (Hshift : 0 < e' - (e + -46)).
  { destruct (Z_lt_ge_dec (-1074) e) as [Hn|Hn]; [specialize (Hnormal Hn)|]; lia. }
  destruct (Hround Hshift) as [-> Hq].
  apply eq_true_iff_eq.
  rewrite SFleb_70_rounded by exact Hq. rewrite SFleb_pos_finite.
  set (n := e' - (e + -46)) in *.
  destruct (rne_spec (Zpos (m * m100)) n ltac:(lia) ltac:(lia))
    as (Q & Rm & HQ & HR & HQ0 & Hcases & Hdown & Hup).
  set (q := rne (Zpos (m * m100)) n) in *.
  clearbody q. clear Hround. rewrite HM in *. unfold m07, m70.
  assert (He4 : e <= -54 \/ -53 <= e) by lia.
  destruct He4 as [He4|He4]; [lia|].
  specialize (Hnormal ltac:(lia)).
  assert (Hdm53 : dm = 53) by lia.
  replace (dm - 1) with 52 in Hml by lia.
  change (2 ^ 52) with 4503599627370496 in Hml.
  assert (Hn : n = d - 53) by lia.
  assert (Hd : d = 105 \/ d = 106) by lia.
  clearbody d n. clear Hmu Hc dm Hdm Hdm53.
  destruct Hd as [-> | ->]; subst n;
    [change (105 - 53) with 52 in *; change (2 ^ (105 - 1)) with (2 ^ 104) in *
    |change (106 - 53) with 53 in *; change (2 ^ (106 - 1)) with (2 ^ 105) in *];
    change (2 ^ 52) with 4503599627370496 in *;
    change (2 ^ 53) with 9007199254740992 in *;
    change (2 ^ 104) with 20282409603651670423947251286016 in *;
    change (2 ^ 105) with 40564819207303340847894502572032 in *;
    change (2 ^ 106) with 81129638414606681695789005144064 in *;
    lia.
Qed.


(** A negative product is below 70, however it is rounded. *)
Lemma SFleb_negative_round (mc : positive) (ec : Z) (M ex : Z) :
  SFleb (S754_finite false mc ec)
        (binary_round_aux prec emax true M ex loc_Exact) = false.
Proof.
  unfold binary_round_aux.
  destruct (shr_fexp prec emax M ex loc_Exact) as [mrs' e'].
  destruct (shr_fexp prec emax _ e' loc_Exact) as [mrs'' e''].
  destruct (shr_m mrs''); [reflexivity| |reflexivity].
  destruct (e'' <=? emax - prec); reflexivity.
Qed.

(** The cutoff on every value of the binary64 format. *)
Lemma SF64_cutoff (a : spec_float) :
  valid_binary a = true ->
  SFleb (S754_finite false m70 (-46)) (SF64mul a (S754_finite false m100 (-46)))
  = SFleb (S754_finite false m07 (-53)) a.
Proof.
  intros Hv. destruct a as [s|s| |s m e].
  - destruct s; reflexivity.
  - destruct s; reflexivity.
  - reflexivity.
  - destruct s.
    + unfold SF64mul, SFmul. cbn [xorb]. rewrite SFleb_negative_round. reflexivity.
    + apply cutoff_positive. exact Hv.
Qed.

(** [x * 100 >= 70] is [x >= 0.7], on every number. *)
Lemma times_100_cutoff (x : JS.number) :
  JS.ge (x * 100)%float 70 = JS.ge x 0.7.
Proof.
  unfold JS.ge.
  rewrite !FloatAxioms.leb_spec, FloatAxioms.mul_spec.
  apply (SF64_cutoff (Prim2SF x)), Prim2SF_valid.
Qed.

End Cutoff.

(** [Math.round] returns the nearest integer: the conversion of an integer
    to binary64 is exact below 2^53, and [round_half_up] picks the integer
    nearest to the fraction. *)
Section Rounding.

#[local] Open Scope Z_scope.

(** A canonical mantissa is kept as it is. *)
Lemma binary_round_aux_canonical (s : bool) (m : positive) (e : Z) :
  bounded prec emax m e = true ->
  binary_round_aux prec emax s (Zpos m) e loc_Exact = S754_finite s m e.
Proof.
  intros Hb. unfold bounded, canonical_mantissa in Hb.
  apply andb_prop in Hb as [Hc He]. apply Z.eqb_eq in Hc.
  unfold binary_round_aux, shr_fexp. cbn [Zdigits2 shr_record_of_loc].
  rewrite Hc, shr_none by lia.
  cbn [shr_m loc_of_shr_record round_nearest_even Zdigits2].
  rewrite Hc, shr_none by lia. cbn [shr_m]. now rewrite He.
Qed.

Lemma digits2_iter_xO (p d : positive) :
  Zpos (digits2_pos (Pos.iter xO p d)) = Zpos (digits2_pos p) + Zpos d.
Proof.
  induction d as [|d IH] using Pos.peano_ind.
  - cbn [Pos.iter digits2_pos]. lia.
  - rewrite Pos.iter_succ. cbn [digits2_pos]. lia.
Qed.

Lemma iter_xO_value (p d : positive) :
  Zpos (Pos.iter xO p d) = Zpos p * 2 ^ Zpos d.
Proof.
  induction d as [|d IH] using Pos.peano_ind.
  - cbn [Pos.iter]. lia.
  - rewrite Pos.iter_succ, Pos2Z.inj_succ, Z.pow_succ_r by lia.
    rewrite Pos2Z.inj_xO, IH. lia.
Qed.

(** Every positive integer below 2^53 is a binary64 number. *)
Lemma binary_normalize_integer (p : positive) :
  Zpos p < 2 ^ 53 ->
  integer_value (binary_normalize prec emax (Zpos p) 0 false) = Some (Zpos p).
Proof.
  intros Hp. pose proof (digits2_le p 53 Hp) as Hd.
  pose proof (digits2_bounds p) as [Hl Hu].
  unfold binary_normalize, binary_round, shl_align. rewrite fexp64.
  set (d := Zpos (digits2_pos p)) in *.
  replace (Z.max (d + 0 - 53) (-1074) - 0) with (d - 53) by lia.
  destruct (d - 53) as [|k|k] eqn:Ek; try lia.
  - rewrite binary_round_aux_canonical.
    + unfold integer_value. simpl. f_equal. lia.
    + unfold bounded, canonical_mantissa. rewrite fexp64. fold d.
      apply andb_true_intro.
      split; [apply Z.eqb_eq|apply Z.leb_le; change (emax - prec) with 971]; lia.
  - replace (Z.max (d + 0 - 53) (-1074)) with (Z.neg k) by lia.
    rewrite binary_round_aux_canonical.
    + unfold integer_value.
      destruct (Z.leb_spec 0 (Z.neg k)); [lia|].
      rewrite iter_xO_value. change (- Z.neg k) with (Zpos k).
      assert (0 < 2 ^ Zpos k) by (apply Z.pow_pos_nonneg; lia).
      rewrite Z.mod_mul, Z.div_mul by lia. reflexivity.
    + unfold bounded, canonical_mantissa. rewrite fexp64, digits2_iter_xO. fold d.
      apply andb_true_intro.
      split; [apply Z.eqb_eq|apply Z.leb_le; change (emax - prec) with 971]; lia.
Qed.

(** [round_half_up] returns an integer at distance at most 1/2 from
    [num / den], the upper one on a tie. *)
Lemma round_half_up_nearest (num den : Z) :
  0 < den ->
  2 * num - den < 2 * den * JS.round_half_up num den <= 2 * num + den.
Proof.
  intros Hden. unfold JS.round_half_up.
  pose proof (Z.div_mod (2 * num + den) (2 * den) ltac:(lia)) as Hdm.
  pose proof (Z.mod_pos_bound (2 * num + den) (2 * den) ltac:(lia)) as Hb.
  lia.
Qed.

Lemma integer_value_opp (y : spec_float) :
  integer_value (SFopp y) = option_map Z.opp (integer_value y).
Proof.
  destruct y as [s|s| |s m e]; try reflexivity.
  unfold SFopp, integer_value.
  destruct (0 <=? e); [destruct s; simpl; f_equal; lia|].
  destruct (_ =? 0); [destruct s; simpl; f_equal; lia|reflexivity].
Qed.

Lemma of_uint63_integer (p : positive) :
  Zpos p < 2 ^ 53 ->
  integer_value (Prim2SF (of_uint63 (Uint63.of_Z (Zpos p)))) = Some (Zpos p).
Proof.
  intros Hp. rewrite of_uint63_spec, Uint63.of_Z_spec.
  rewrite Z.mod_small.
  - now apply binary_normalize_integer.
  - change (2 ^ 53) with 9007199254740992 in Hp.
    change Uint63.wB with 9223372036854775808. lia.
Qed.

(** [of_integer n s] is the integer [n]. *)
Lemma of_integer_value (n : Z) (s : bool) :
  Z.abs n < 2 ^ 53 ->
  integer_value (Prim2SF (JS.of_integer n s)) = Some n.
Proof.
  intros Hn. unfold JS.of_integer. cbv zeta.
  destruct n as [|p|p].
  - destruct s; reflexivity.
  - change (Z.pos p <? 0) with false. change (Z.pos p =? 0) with false.
    cbn [orb andb]. change (Z.abs (Z.pos p)) with (Z.pos p) in *.
    now apply of_uint63_integer.
  - change (Z.neg p <? 0) with true. cbn [orb].
    change (Z.abs (Z.neg p)) with (Z.pos p) in *.
    rewrite opp_spec, integer_value_opp, of_uint63_integer by exact Hn.
    reflexivity.
Qed.

(** [Math.round] of a finite number [num / den] is an integer [n], the
    nearest one, the upper one on a tie: [num/den - 1/2 < n <= num/den + 1/2]. *)
Theorem Math_round_nearest (x : JS.number) (num den : Z) :
  fraction (Prim2SF x) = Some (num, den) ->
  exists n : Z,
    integer_value (Prim2SF (JS.Math_round x)) = Some n
    /\ 2 * num - den < 2 * den * n <= 2 * num + den.
Proof.
  intros Hf. pose proof (Prim2SF_valid x) as Hv.
  unfold JS.Math_round.
  destruct (Prim2SF x) as [s|s| |s m e] eqn:Ex; try discriminate.
  - rewrite Ex. injection Hf as <- <-. exists 0. split; [reflexivity|lia].
  - unfold fraction in Hf. destruct (Z.leb_spec 0 e) as [He|He].
    + rewrite Ex. injection Hf as <- <-. eexists. split.
      * unfold integer_value. destruct (Z.leb_spec 0 e); [reflexivity|lia].
      * lia.
    + injection Hf as <- <-.
      set (num := cond_Zopp s (Zpos m)). set (den := 2 ^ (- e)).
      assert (Hden : 2 <= den).
      { change 2 with (2 ^ 1). apply Z.pow_le_mono_r; lia. }
      pose proof (round_half_up_nearest num den ltac:(lia)) as Hn.
      exists (JS.round_half_up num den). split; [|exact Hn].
      apply of_integer_value.
      unfold valid_binary, bounded, canonical_mantissa in Hv.
      apply andb_prop in Hv as [Hc _]. apply Z.eqb_eq in Hc. rewrite fexp64 in Hc.
      pose proof (digits2_bounds m) as [_ Hu].
      assert (Hm : Zpos m < 2 ^ 53).
      { eapply Z.lt_le_trans; [exact Hu|]. apply Z.pow_le_mono_r; lia. }
      change (2 ^ 53) with 9007199254740992 in *.
      assert (Hnum : - 9007199254740992 < num < 9007199254740992)
        by (unfold num; destruct s; simpl; lia).
      clearbody num den. nia.
Qed.

Example Math_round_examples :
  JS.Math_round 28.499999999999996 = 28%float
  /\ JS.Math_round 2.5 = 3%float
  /\ JS.Math_round (-2.5) = (-2)%float
  /\ JS.Math_round 70 = 70%float
  /\ Prim2SF (JS.Math_round (-0.2)) = S754_zero true
  /\ JS.Math_round 0.49999999999999994 = 0%float
  /\ Prim2SF (JS.Math_round nan) = S754_nan.
Proof. repeat split; vm_compute; reflexivity. Qed.

End Rounding.


(* ================================================================== *)
(** * Strings *)
(* ================================================================== *)

Section Strings.

Lemma trimStart_all_whitespace (s : string) :
  all_whitespace s = true -> JS.trimStart s = "".
Proof.
  induction s as [|c s IH]; simpl; [reflexivity|].
  intros H. apply andb_prop in H as [Hc Hs]. rewrite Hc. auto.
Qed.

(** Trimming a string made of white space only leaves nothing. *)
Lemma trim_all_whitespace (s : string) :
  all_whitespace s = true -> JS.trim s = "".
Proof.
  intros H. unfold JS.trim. now rewrite trimStart_all_whitespace.
Qed.

Lemma trimEnd_empty (s : string) :
  JS.trimEnd s = "" -> all_whitespace s = true.
Proof.
  induction s as [|c s IH]; simpl; [reflexivity|].
  destruct (JS.trimEnd s) eqn:E; [|discriminate].
  destruct (JS.isWhiteSpace c); [auto|discriminate].
Qed.

Lemma trimStart_suffix (s : string) :
  all_whitespace (JS.trimStart s) = true -> all_whitespace s = true.
Proof.
  induction s as [|c s IH]; simpl; [reflexivity|].
  destruct (JS.isWhiteSpace c) eqn:E; simpl; [auto|].
  rewrite E. simpl. discriminate.
Qed.

(** ... and only those strings trim to the empty string. *)
Lemma trim_empty_iff (s : string) :
  JS.trim s = "" <-> all_whitespace s = true.
Proof.
  split; [|apply trim_all_whitespace].
  intros H. apply trimStart_suffix, trimEnd_empty, H.
Qed.

Lemma prefix_app (t s : string) : String.prefix t (t ++ s) = true.
Proof.
  induction t as [|c t IH]; simpl.
  - now destruct s.
  - destruct (ascii_dec c c); [exact IH|congruence].
Qed.

Lemma includes_prefix (s t : string) :
  String.prefix t s = true -> JS.includes s t = true.
Proof.
  intros H. destruct s; simpl in *; rewrite H; reflexivity.
Qed.

(** A string includes each of its contiguous parts. *)
Lemma includes_app (pre t post : string) :
  JS.includes (pre ++ t ++ post) t = true.
Proof.
  induction pre as [|c pre IH].
  - simpl. apply includes_prefix, prefix_app.
  - simpl. rewrite IH. apply orb_true_r.
Qed.

Example toLowerCase_examples :
  JS.toLowerCase "Bullish Momentum" = "bullish momentum"
  /\ JS.includes "bullish momentum" "momentum" = true
  /\ JS.includes "short squeeze" "bear" = false
  /\ JS.trim "  hi there " = "hi there".
Proof. repeat split. Qed.

End Strings.

(* ================================================================== *)
(** * The filter/search engine: properties *)
(* ================================================================== *)

Section FilterProperties.

Import Filter.

Example scenario_bullish :
  filteredOpportunities [AAPL; TSLA] "" "bullish" = [AAPL].
Proof. reflexivity. Qed.

Example scenario_high_confidence :
  filteredOpportunities [AAPL; TSLA] "" "high-confidence" = [AAPL].
Proof. reflexivity. Qed.

Example scenario_search :
  filteredOpportunities [AAPL; TSLA] "tsla" "all" = [TSLA].
Proof. reflexivity. Qed.

(** What [Array.prototype.filter] keeps is a subsequence of the array. *)
Lemma filter_sublist {A} (p : A -> bool) (l : list A) :
  sublist (List.filter p l) l.
Proof.
  induction l as [|x l IH]; simpl.
  - constructor.
  - destruct (p x); now constructor.
Qed.

Lemma sublist_In {A} (l1 l2 : list A) :
  sublist l1 l2 -> forall x, In x l1 -> In x l2.
Proof.
  induction 1 as [|y l1 l2 _ IH|y l1 l2 _ IH]; intros x Hx; simpl in *.
  - exact Hx.
  - destruct Hx as [Hx|Hx]; [now left|right; auto].
  - right; auto.
Qed.

Lemma sublist_count_occ (l1 l2 : list Opportunity) :
  sublist l1 l2 ->
  forall x, count_occ Opportunity_eq_dec l1 x <= count_occ Opportunity_eq_dec l2 x.
Proof.
  induction 1 as [|y l1 l2 _ IH|y l1 l2 _ IH]; intros x; simpl.
  - lia.
  - specialize (IH x). destruct (Opportunity_eq_dec y x); lia.
  - specialize (IH x). destruct (Opportunity_eq_dec y x); lia.
Qed.

(** C8. With an empty search term and the filter type "all", the filtered
    view is the store itself. *)
Theorem filter_identity (store : list Opportunity) :
  filteredOpportunities store "" "all" = store.
Proof.
  induction store as [|opp store IH]; [reflexivity|].
  change (filteredOpportunities (opp :: store) "" "all")
    with (opp :: filteredOpportunities store "" "all").
  now rewrite IH.
Qed.

(** C6. Whatever the store, the search term and the filter type, the
    filtered view is a subsequence of the store: its items are taken from
    the store in the store's order ([sublist]), so each of them occurs in
    the store, and none occurs more often than in the store. *)
Theorem filtered_is_subsequence (store : list Opportunity) (searchTerm filterType : string) :
  let result := filteredOpportunities store searchTerm filterType in
  sublist result store
  /\ (forall opp, In opp result -> In opp store)
  /\ (forall opp, count_occ Opportunity_eq_dec result opp
                  <= count_occ Opportunity_eq_dec store opp).
Proof.
  assert (H : sublist (filteredOpportunities store searchTerm filterType) store)
    by apply filter_sublist.
  cbv zeta. split; [exact H|]. split.
  - now apply sublist_In.
  - now apply sublist_count_occ.
Qed.

(** The search term is applied as well: with the store [[AAPL]]
    (confidence 0.85) and the search term "tsla", the row is left out
    although its confidence is not below 0.7. *)
Lemma threshold_partition_fails_with_search :
  filteredOpportunities [AAPL] "tsla" "high-confidence" = []
  /\ In AAPL [AAPL]
  /\ JS.lt (confidence_score AAPL) 0.7 = false
  /\ (threshold_partition [AAPL] "tsla" -> False).
Proof.
  repeat split; try reflexivity; [now left|].
  intros [_ H]. specialize (H AAPL (or_introl eq_refl) (fun F => F)).
  vm_compute in H. discriminate.
Qed.

(** C3, amended. Under the "high-confidence" filter every row of the
    result has a confidence of at least 0.7; a row of the store that is
    left out either fails the text search or has a confidence that is not
    at least 0.7, which for a score that is a number (not NaN) means
    below 0.7.  With an empty search term every row passes the text
    search, so every row left out is of the second kind. *)
Theorem high_confidence_filter (store : list Opportunity) (searchTerm : string) :
  let result := filteredOpportunities store searchTerm "high-confidence" in
  (forall opp, In opp result -> JS.ge (confidence_score opp) 0.7 = true)
  /\ (forall opp, In opp store -> ~ In opp result ->
        matchesSearch searchTerm opp = false
        \/ JS.ge (confidence_score opp) 0.7 = false)
  /\ (forall opp, In opp store -> ~ In opp result ->
        matchesSearch searchTerm opp = true ->
        is_nan (confidence_score opp) = false ->
        JS.lt (confidence_score opp) 0.7 = true)
  /\ (forall opp, matchesSearch "" opp = true).
Proof.
  cbv zeta. unfold filteredOpportunities.
  assert (Hf : forall opp,
             matchesFilter "high-confidence" opp = JS.ge (confidence_score opp) 0.7)
    by (intros opp; reflexivity).
  assert (Hout : forall opp, In opp store ->
             ~ In opp (List.filter
                         (fun o => matchesSearch searchTerm o
                                   && matchesFilter "high-confidence" o) store) ->
             matchesSearch searchTerm opp = false
             \/ JS.ge (confidence_score opp) 0.7 = false).
  { intros opp Hin Hout. rewrite filter_In in Hout.
    destruct (matchesSearch searchTerm opp) eqn:Es; [|now left].
    right. rewrite <- Hf.
    destruct (matchesFilter "high-confidence" opp) eqn:Em; [|reflexivity].
    exfalso. apply Hout. split; [assumption|reflexivity]. }
  repeat split.
  - intros opp Hin. apply filter_In in Hin as [_ Hin].
    apply andb_prop in Hin as [_ Hin]. now rewrite <- Hf.
  - exact Hout.
  - intros opp Hin Hnot Hs Hnan.
    destruct (Hout opp Hin Hnot) as [H|H]; [congruence|].
    now apply not_ge_lt.
Qed.

Lemma high_confidence_filter_witness :
  In TSLA [AAPL; TSLA]
  /\ ~ In TSLA (filteredOpportunities [AAPL; TSLA] "" "high-confidence")
  /\ JS.lt (confidence_score TSLA) 0.7 = true.
Proof.
  assert (Hin : In TSLA [AAPL; TSLA]) by (right; left; reflexivity).
  assert (Hout : ~ In TSLA (filteredOpportunities [AAPL; TSLA] "" "high-confidence")).
  { intros [H|[]]. discriminate H. }
  split; [exact Hin|]. split; [exact Hout|].
  exact (proj1 (proj2 (proj2 (high_confidence_filter [AAPL; TSLA] "")))
               TSLA Hin Hout eq_refl eq_refl).
Defined.

End FilterProperties.

(* ================================================================== *)
(** * Aggregate stats: properties *)
(* ================================================================== *)

Section StatsProperties.

(** The [App] component counts the rows at or above 0.7, on every store. *)
Lemma app_highConfidence_cutoff (store : list Opportunity) :
  AppStats.highConfidence (AppStats.stats store) = at_least_070 store.
Proof.
  unfold AppStats.stats, AppStats.highConfidence, at_least_070. f_equal.
  apply List.filter_ext. intros opp. apply times_100_cutoff.
Qed.

(** The Home page counts the rows strictly above 0.7. *)
Lemma home_highConfidence_strict (store : list Opportunity) :
  HomeStats.highConfidence (HomeStats.compute store)
  = length (List.filter (fun opp => JS.gt (confidence_score opp) 0.7) store).
Proof. reflexivity. Qed.

(** C1. The [App] component's high-confidence stat is, on every store, the
    number of rows with a confidence of at least 0.7.  The Home page's is
    not: at the store [[borderline]], one row with a confidence of exactly
    0.7, the row is at the cutoff, [App] counts it, and [Home.jsx], which
    compares with [>], reports no high-confidence row. *)
Theorem home_highConfidence_misses_cutoff :
  (forall store, AppStats.highConfidence (AppStats.stats store) = at_least_070 store)
  /\ at_least_070 [borderline] = 1
  /\ AppStats.highConfidence (AppStats.stats [borderline]) = 1
  /\ HomeStats.highConfidence (HomeStats.compute [borderline]) = 0.
Proof.
  split; [exact app_highConfidence_cutoff|]. repeat split.
Qed.

Lemma reduce_percent (store : list Opportunity) (acc : JS.number) :
  fold_left (fun sum opp => sum + confidence_score opp * 100)%float store acc
  = fold_left PrimFloat.add (map percent store) acc.
Proof.
  revert acc. induction store as [|opp store IH]; intros acc; simpl.
  - reflexivity.
  - apply IH.
Qed.

(** The number of rows of a store, as a number: its value is the length. *)
Lemma of_length_value (n : nat) :
  (Z.of_nat n < 2 ^ 32)%Z ->
  integer_value (Prim2SF (JS.of_length n)) = Some (Z.of_nat n).
Proof.
  intros Hn. unfold JS.of_length.
  destruct (Z.of_nat n) as [|p|p] eqn:E; [reflexivity| |lia].
  apply of_uint63_integer.
  assert ((2 ^ 32 < 2 ^ 53)%Z) by reflexivity. lia.
Qed.

(** C7. The average confidence of the empty store is the number 0 (not
    NaN: the division is not evaluated); that of a non-empty store (of
    fewer than 2^32 rows, as every array is) is [Math.round] of the mean
    of the rows' [confidence_score * 100], the mean being the sum from the
    left divided by the number of rows; and [Math.round] of a finite
    number [num / den] is the integer nearest to it (the upper one on a
    tie). *)
Theorem avgConfidence_guarded :
  AppStats.avgConfidence (AppStats.stats []) = 0%float
  /\ is_nan (AppStats.avgConfidence (AppStats.stats [])) = false
  /\ (forall store,
        store <> [] ->
        (Z.of_nat (length store) < 2 ^ 32)%Z ->
        exists m : JS.number,
          is_mean (map percent store) m
          /\ AppStats.avgConfidence (AppStats.stats store) = JS.Math_round m)
  /\ (forall x num den,
        fraction (Prim2SF x) = Some (num, den) ->
        exists n : Z,
          integer_value (Prim2SF (JS.Math_round x)) = Some n
          /\ (2 * num - den < 2 * den * n <= 2 * num + den)%Z).
Proof.
  split; [reflexivity|]. split; [reflexivity|]. split; [|exact Math_round_nearest].
  intros store Hne Hlen.
  exists (sum (map percent store) / JS.of_length (length store))%float. split.
  - exists (JS.of_length (length store)). split; [|reflexivity].
    rewrite length_map. now apply of_length_value.
  - destruct store as [|opp rest]; [congruence|].
    unfold AppStats.stats, AppStats.avgConfidence, sum.
    change (0 <? length (opp :: rest))%nat with true. cbv iota.
    now rewrite reduce_percent.
Qed.

(** The store [[borderline; TSLA]]: its average confidence is
    [Math.round] of the mean of 70 and 55, and the mean 62.5 is rounded up
    to 63. *)
Lemma avgConfidence_guarded_witness :
  [borderline; TSLA] <> []
  /\ (Z.of_nat (length [borderline; TSLA]) < 2 ^ 32)%Z
  /\ (exists m : JS.number,
         is_mean (map percent [borderline; TSLA]) m
         /\ AppStats.avgConfidence (AppStats.stats [borderline; TSLA])
            = JS.Math_round m)
  /\ AppStats.avgConfidence (AppStats.stats [borderline; TSLA]) = 63%float
  /\ fraction (Prim2SF 62.5) = Some (8796093022208000, 140737488355328)%Z
  /\ exists n : Z,
       integer_value (Prim2SF (JS.Math_round 62.5)) = Some n
       /\ (2 * 8796093022208000 - 140737488355328
           < 2 * 140737488355328 * n
           <= 2 * 8796093022208000 + 140737488355328)%Z.
Proof.
  split; [discriminate|]. split; [reflexivity|].
  split; [exact (proj1 (proj2 (proj2 avgConfidence_guarded))
                       [borderline; TSLA]
                       (fun E => eq_ind [borderline; TSLA]
                                   (fun l => match l with [] => False | _ => True end)
                                   I [] E)
                       eq_refl)|].
  split; [vm_compute; reflexivity|]. split; [reflexivity|].
  exact (proj2 (proj2 (proj2 avgConfidence_guarded)) 62.5%float _ _ eq_refl).
Defined.

Example avgConfidence_scenario :
  AppStats.avgConfidence (AppStats.stats [AAPL; TSLA]) = 70%float
  /\ AppStats.avgConfidence (AppStats.stats [borderline; TSLA]) = 63%float.
Proof. split; vm_compute; reflexivity. Qed.

End StatsProperties.


(* ================================================================== *)
(** * The fetch lifecycle: properties *)
(* ================================================================== *)

(** Unfold a component function down to the answers of the backend, then
    split on them. *)
Ltac unfold_ops :=
  unfold completion, world, state,
    try_catch_finally, try_catch, bind, axios, set, read, ret, now, console_log;
  cbn.

Ltac split_answers :=
  repeat match goal with
         | |- context [match ?o with Resolved _ => _ | Rejected _ => _ end] =>
             let E := fresh "Answer" in destruct o eqn:E; cbn
         end.

Ltac unfold_page :=
  unfold OpportunitiesPage.runDisabled, OpportunitiesPage.runTechnicalAnalysis,
    OpportunitiesPage.loadExistingOpportunities, OpportunitiesPage.checkAgentHealth,
    OpportunitiesPage.setLoading, OpportunitiesPage.setError,
    OpportunitiesPage.setIsAgentRunning, OpportunitiesPage.setOpportunities,
    OpportunitiesPage.setAgentStatus, OpportunitiesPage.setLastAnalysisTime;
  unfold_ops.

Ltac unfold_app :=
  unfold App.runDisabled, App.runTechnicalAnalysis, App.loadExistingOpportunities,
    App.checkAgentHealth, App.sendChatMessage, App.setLoading, App.setError,
    App.setIsAgentRunning, App.setOpportunities, App.setLastAnalysisTime,
    App.setChatMessages, App.setChatInput;
  unfold_ops.

Example list_request_is_authenticated :
  list_request
  = Get "http://localhost:8001/opportunities"
        [("Authorization", "Bearer dev-key-12345")].
Proof. reflexivity. Qed.

Section RunAnalysis.

Variable env : Env.
Variable w : World.

Lemma page_trigger_then_list (st : OpportunitiesPage.State) :
  trigger_then_list research_request list_request
    OpportunitiesPage.runTechnicalAnalysis
    OpportunitiesPage.opportunities OpportunitiesPage.error env w st.
Proof.
  unfold trigger_then_list. cbv zeta. unfold_page.
  split_answers; repeat split; congruence.
Qed.

Lemma app_trigger_then_list (st : App.State) :
  trigger_then_list research_request list_request
    App.runTechnicalAnalysis App.opportunities App.error env w st.
Proof.
  unfold trigger_then_list. cbv zeta. unfold_app.
  split_answers; repeat split; congruence.
Qed.

Lemma trigger_then_list_ids {S} trigger listing (run : M S unit) store err (st : S) :
  trigger_then_list trigger listing run store err env w st ->
  serves_ids env ->
  err (state (run env w st)) = None ->
  Forall has_id (store (state (run env w st))).
Proof.
  unfold trigger_then_list. cbv zeta. intros H Hids Hok.
  destruct (research _ _); [|tauto].
  destruct H as [_ H].
  destruct (list_opportunities _ _) as [[rows|]|] eqn:E.
  - destruct H as [-> _]. simpl. eapply Hids, E.
  - destruct H as [-> _]. constructor.
  - tauto.
Qed.

(** C4. In both components, a run of [runTechnicalAnalysis] first sends
    the trigger, a [POST] to [http://localhost:8001/research] with the
    query, the look-back window and the bearer token; only when it
    resolves is the authenticated [GET http://localhost:8001/opportunities]
    sent, and the store after the run is the store before it or the body
    of that answer ([[]] for an empty body), never the rows of the
    trigger's answer.  Hence when the list endpoint serves rows with ids,
    the store after a run that succeeded (no error recorded) holds only
    rows with an id. *)
Theorem runTechnicalAnalysis_commits_list_only :
  let trigger :=
    Post "http://localhost:8001/research"
         (ResearchBody "Find technical trading opportunities" 30)
         [("Authorization", "Bearer dev-key-12345");
          ("Content-Type", "application/json")] in
  let listing :=
    Get "http://localhost:8001/opportunities"
        [("Authorization", "Bearer dev-key-12345")] in
  (forall st,
      trigger_then_list trigger listing OpportunitiesPage.runTechnicalAnalysis
        OpportunitiesPage.opportunities OpportunitiesPage.error env w st
      /\ (serves_ids env ->
          OpportunitiesPage.error
            (state (OpportunitiesPage.runTechnicalAnalysis env w st)) = None ->
          Forall has_id
            (OpportunitiesPage.opportunities
               (state (OpportunitiesPage.runTechnicalAnalysis env w st)))))
  /\ (forall st,
      trigger_then_list trigger listing App.runTechnicalAnalysis
        App.opportunities App.error env w st
      /\ (serves_ids env ->
          App.error (state (App.runTechnicalAnalysis env w st)) = None ->
          Forall has_id
            (App.opportunities (state (App.runTechnicalAnalysis env w st))))).
Proof.
  cbv zeta. split; intros st.
  - split; [exact (page_trigger_then_list st)|].
    apply (trigger_then_list_ids _ _ _ _ _ _ (page_trigger_then_list st)).
  - split; [exact (app_trigger_then_list st)|].
    apply (trigger_then_list_ids _ _ _ _ _ _ (app_trigger_then_list st)).
Qed.

(** C9. In both components, every run of [runTechnicalAnalysis] completes
    normally with [loading] and [isAgentRunning] both false, whatever the
    backend answers (the [finally] block runs on every path), so the Run
    Analysis button is enabled again. *)
Theorem runTechnicalAnalysis_releases_guard :
  (forall st,
      let r := OpportunitiesPage.runTechnicalAnalysis env w st in
      completion r = Normal tt
      /\ OpportunitiesPage.loading (state r) = false
      /\ OpportunitiesPage.isAgentRunning (state r) = false
      /\ OpportunitiesPage.runDisabled (state r) = false)
  /\ (forall st,
      let r := App.runTechnicalAnalysis env w st in
      completion r = Normal tt
      /\ App.loading (state r) = false
      /\ App.isAgentRunning (state r) = false
      /\ App.runDisabled (state r) = false).
Proof.
  split; intros st; cbv zeta.
  - unfold_page. split_answers; repeat split.
  - unfold_app. split_answers; repeat split.
Qed.

(** While the run is in flight the button is disabled: the state the
    first three setters leave has [loading] and [isAgentRunning] set. *)
Example run_in_flight_is_disabled :
  let st := state (bind (OpportunitiesPage.setLoading true)
                     (fun _ => bind (OpportunitiesPage.setError None)
                     (fun _ => OpportunitiesPage.setIsAgentRunning true))
                     env w OpportunitiesPage.initial) in
  OpportunitiesPage.runDisabled st = true.
Proof. reflexivity. Qed.

End RunAnalysis.

Lemma serves_scenario_ids : serves_ids serves_scenario.
Proof.
  intros log rows H. injection H as <-.
  repeat constructor; discriminate.
Defined.

Lemma runTechnicalAnalysis_commits_list_only_witness :
  serves_ids serves_scenario
  /\ sent (world (OpportunitiesPage.runTechnicalAnalysis serves_scenario quiet
                    OpportunitiesPage.initial))
     = [Post "http://localhost:8001/research"
             (ResearchBody "Find technical trading opportunities" 30)
             [("Authorization", "Bearer dev-key-12345");
              ("Content-Type", "application/json")];
        Get "http://localhost:8001/opportunities"
            [("Authorization", "Bearer dev-key-12345")]]
  /\ OpportunitiesPage.opportunities
       (state (OpportunitiesPage.runTechnicalAnalysis serves_scenario quiet
                 OpportunitiesPage.initial)) = [AAPL; TSLA]
  /\ Forall has_id
       (OpportunitiesPage.opportunities
          (state (OpportunitiesPage.runTechnicalAnalysis serves_scenario quiet
                    OpportunitiesPage.initial))).
Proof.
  split; [exact serves_scenario_ids|].
  split; [exact (proj1 (proj1 (proj1 (runTechnicalAnalysis_commits_list_only
                                        serves_scenario quiet)
                                     OpportunitiesPage.initial)))|].
  split; [exact (proj1 (proj2 (proj1 (proj1 (runTechnicalAnalysis_commits_list_only
                                               serves_scenario quiet)
                                            OpportunitiesPage.initial))))|].
  exact (proj2 (proj1 (runTechnicalAnalysis_commits_list_only serves_scenario quiet)
                      OpportunitiesPage.initial)
               serves_scenario_ids eq_refl).
Defined.

Section ListFetchFailure.

(** When the list fetch of [loadExistingOpportunities] is answered with
    status 500, the message goes to the console and the [error] cell stays
    [null]: no error message is in the UI state. *)
Lemma loadExistingOpportunities_failure_not_in_ui :
  list_opportunities (backend list_fails) [list_request]
    = Rejected "Request failed with status code 500"
  /\ OpportunitiesPage.error
       (state (OpportunitiesPage.loadExistingOpportunities list_fails quiet
                 OpportunitiesPage.initial)) = None
  /\ console
       (world (OpportunitiesPage.loadExistingOpportunities list_fails quiet
                 OpportunitiesPage.initial))
     = [["Failed to load existing opportunities:";
         "Request failed with status code 500"]]
  /\ (failure_surfaces OpportunitiesPage.loadExistingOpportunities
        OpportunitiesPage.opportunities OpportunitiesPage.error
        list_fails quiet OpportunitiesPage.initial -> False).
Proof.
  repeat split.
  intros (_ & (m & Hm & _) & _). discriminate Hm.
Qed.

Variable env : Env.
Variable w : World.
Variable msg : string.

Lemma mentions_opportunities :
  JS.includes ("Failed to fetch trading opportunities: " ++ msg) "opportunities" = true.
Proof.
  exact (includes_app "Failed to fetch trading " "opportunities" (": " ++ msg)).
Qed.

(** C2, amended. When the list fetch fails, the store is left as it was
    and the failure is caught, in every operation that fetches the list.
    [loadExistingOpportunities] (both components) writes "Failed to load
    existing opportunities:" and the message to the console and leaves the
    whole UI state, its [error] cell included, as it was;
    [runTechnicalAnalysis] (both components) records the error "Failed to
    fetch trading opportunities: " followed by the message, which
    mentions "opportunities". *)
Theorem list_fetch_failure :
  (list_opportunities (backend env) (sent w ++ [list_request])%list = Rejected msg ->
   let w' := mkWorld (sent w ++ [list_request])%list
               (console w ++ [["Failed to load existing opportunities:"; msg]])%list in
   (forall st, OpportunitiesPage.loadExistingOpportunities env w st = (Normal tt, w', st))
   /\ (forall st, App.loadExistingOpportunities env w st = (Normal tt, w', st)))
  /\ (list_fetch_of_run_fails env w msg ->
      (forall st,
          failure_surfaces OpportunitiesPage.runTechnicalAnalysis
            OpportunitiesPage.opportunities OpportunitiesPage.error env w st
          /\ OpportunitiesPage.error
               (state (OpportunitiesPage.runTechnicalAnalysis env w st))
             = Some ("Failed to fetch trading opportunities: " ++ msg))
      /\ (forall st,
          failure_surfaces App.runTechnicalAnalysis
            App.opportunities App.error env w st
          /\ App.error (state (App.runTechnicalAnalysis env w st))
             = Some ("Failed to fetch trading opportunities: " ++ msg))).
Proof.
  split.
  - intros H. cbv zeta. split; intros st.
    + unfold_page. rewrite H. cbn. now destruct st.
    + unfold_app. rewrite H. cbn. now destruct st.
  - intros [[rows Hr] Hl]. split; intros st; unfold failure_surfaces; cbv zeta.
    + unfold_page. rewrite Hr. cbn. rewrite Hl. cbn.
      repeat split. eexists. split; [reflexivity|apply mentions_opportunities].
    + unfold_app. rewrite Hr. cbn. rewrite Hl. cbn.
      repeat split. eexists. split; [reflexivity|apply mentions_opportunities].
Qed.

End ListFetchFailure.

Lemma list_fetch_failure_witness :
  OpportunitiesPage.loadExistingOpportunities list_fails quiet OpportunitiesPage.initial
  = (Normal tt,
     mkWorld [list_request]
             [["Failed to load existing opportunities:";
               "Request failed with status code 500"]],
     OpportunitiesPage.initial)
  /\ App.error (state (App.runTechnicalAnalysis list_fails quiet App.initial))
     = Some "Failed to fetch trading opportunities: Request failed with status code 500".
Proof.
  split.
  - exact (proj1 (proj1 (list_fetch_failure list_fails quiet
                           "Request failed with status code 500") eq_refl)
                 OpportunitiesPage.initial).
  - exact (proj2 (proj2 (proj2 (list_fetch_failure list_fails quiet
                                  "Request failed with status code 500")
                               (conj (ex_intro _ [] eq_refl) eq_refl))
                        App.initial)).
Defined.

Section AgentStatus.

Variable env : Env.
Variable w : World.

(** In [Opportunities.jsx] no operation that fetches the list touches
    [agentStatus]: only [checkAgentHealth] sets it. *)
Lemma page_list_fetch_keeps_agentStatus (st : OpportunitiesPage.State) :
  OpportunitiesPage.agentStatus
    (state (OpportunitiesPage.loadExistingOpportunities env w st))
  = OpportunitiesPage.agentStatus st
  /\ OpportunitiesPage.agentStatus
       (state (OpportunitiesPage.runTechnicalAnalysis env w st))
     = OpportunitiesPage.agentStatus st.
Proof.
  split; unfold_page; split_answers; reflexivity.
Qed.

(** On the Home page, whenever the health check resolves and the list
    fetch that follows is rejected, the status ends as "disconnected". *)
Lemma home_list_failure_any (st : Home.State) (body msg : string) :
  health (backend env) (sent w ++ [health_request])%list = Resolved body ->
  list_opportunities (backend env)
    ((sent w ++ [health_request]) ++ [list_request])%list = Rejected msg ->
  Home.agentStatus (state (Home.loadDashboardData env w st)) = "disconnected".
Proof.
  intros Hh Hl. unfold Home.loadDashboardData, Home.setAgentStatus,
    Home.setOpportunities, Home.setStats.
  unfold_ops. rewrite Hh. cbn. rewrite Hl. reflexivity.
Qed.

End AgentStatus.

(** C5. On the Home page the health check and the list fetch share one
    [try] block.  With a backend whose health endpoint answers and whose
    list endpoint fails with status 500, [loadDashboardData] sends both
    requests, and the failure of the list fetch sets [agentStatus] to
    "disconnected", although the health check had succeeded; had the list
    fetch succeeded too, the status would read "connected". *)
Theorem home_list_failure_sets_disconnected :
  health (backend list_fails) [health_request] = Resolved "{status: healthy}"
  /\ sent (world (Home.loadDashboardData list_fails quiet Home.initial))
     = [health_request; list_request]
  /\ Home.agentStatus (state (Home.loadDashboardData list_fails quiet Home.initial))
     = "disconnected"
  /\ Home.agentStatus (state (Home.loadDashboardData serves_scenario quiet Home.initial))
     = "connected".
Proof. repeat split. Qed.

Section Chat.

(** C10. When the chat input is empty or made of white space only,
    [sendChatMessage] returns at once: no request is sent, and the state,
    with the chat messages and the chat input, is what it was. *)
Theorem sendChatMessage_blank_noop (env : Env) (w : World) (st : App.State) :
  all_whitespace (App.chatInput st) = true ->
  App.sendChatMessage env w st = (Normal tt, w, st).
Proof.
  intros H. unfold App.sendChatMessage. unfold_ops.
  now rewrite (trim_all_whitespace _ H).
Qed.

Lemma sendChatMessage_blank_noop_witness :
  all_whitespace (App.chatInput blank_input) = true
  /\ App.sendChatMessage serves_scenario quiet blank_input
     = (Normal tt, quiet, blank_input).
Proof.
  split; [reflexivity|].
  apply (sendChatMessage_blank_noop serves_scenario quiet blank_input).
  reflexivity.
Defined.

(** A message that is not blank is sent with the text as typed, and the
    chat shows it followed by the answer. *)
Example sendChatMessage_sends :
  let r := App.sendChatMessage serves_scenario quiet
             (App.mkState [] false [] " hi " None false None "1D" "OPEN" None false) in
  sent (world r) = [chat_request " hi "]
  /\ App.chatMessages (state r)
     = [App.mkMessage "user" " hi "; App.mkMessage "assistant" "Hello"]
  /\ App.chatInput (state r) = "".
Proof. repeat split. Qed.

End Chat.

(* ================================================================== *)
(** * Further properties of the pages *)
(* ================================================================== *)

Ltac unfold_page_all :=
  unfold OpportunitiesPage.openModal, OpportunitiesPage.closeModal,
    OpportunitiesPage.setSelectedOpportunity, OpportunitiesPage.setIsModalOpen;
  unfold_page.

Ltac unfold_app_all :=
  unfold App.handleViewOpportunity, App.handleCloseModal,
    App.setSelectedOpportunity, App.setIsModalOpen;
  unfold_app.

Ltac unfold_home :=
  unfold Home.loadDashboardData, Home.setAgentStatus, Home.setOpportunities,
    Home.setStats;
  unfold_ops.

Section HealthCheck.

Variable env : Env.
Variable w : World.

(** X1. [checkAgentHealth] sends one [GET /health] without credentials
    and never throws.  In [Opportunities.jsx] it ends with [agentStatus]
    "connected" when the request resolves, and with "disconnected" and the
    banner "Unable to connect to Technical Researcher Agent" when it is
    rejected; in [App] a resolved check leaves the state as it was and a
    rejected one sets the banner.  No other cell changes: a check that
    succeeds does not clear a banner that is already shown. *)
Theorem checkAgentHealth_outcome :
  (forall st,
      let r := OpportunitiesPage.checkAgentHealth env w st in
      completion r = Normal tt
      /\ sent (world r) = (sent w ++ [Get "http://localhost:8001/health" []])%list
      /\ state r =
         match health (backend env) (sent w ++ [health_request])%list with
         | Resolved _ =>
             OpportunitiesPage.mkState
               (OpportunitiesPage.opportunities st) (OpportunitiesPage.loading st)
               (OpportunitiesPage.error st) (OpportunitiesPage.isAgentRunning st)
               "connected"
               (OpportunitiesPage.selectedOpportunity st)
               (OpportunitiesPage.isModalOpen st)
               (OpportunitiesPage.lastAnalysisTime st)
               (OpportunitiesPage.searchTerm st) (OpportunitiesPage.filterType st)
         | Rejected _ =>
             OpportunitiesPage.mkState
               (OpportunitiesPage.opportunities st) (OpportunitiesPage.loading st)
               (Some "Unable to connect to Technical Researcher Agent")
               (OpportunitiesPage.isAgentRunning st)
               "disconnected"
               (OpportunitiesPage.selectedOpportunity st)
               (OpportunitiesPage.isModalOpen st)
               (OpportunitiesPage.lastAnalysisTime st)
               (OpportunitiesPage.searchTerm st) (OpportunitiesPage.filterType st)
         end)
  /\ (forall st,
      let r := App.checkAgentHealth env w st in
      completion r = Normal tt
      /\ sent (world r) = (sent w ++ [Get "http://localhost:8001/health" []])%list
      /\ state r =
         match health (backend env) (sent w ++ [health_request])%list with
         | Resolved _ => st
         | Rejected _ =>
             App.mkState
               (App.opportunities st) (App.loading st) (App.chatMessages st)
               (App.chatInput st)
               (Some "Unable to connect to Technical Researcher Agent")
               (App.isAgentRunning st) (App.lastAnalysisTime st)
               (App.selectedTimeframe st) (App.marketStatus st)
               (App.selectedOpportunity st) (App.isModalOpen st)
         end).
Proof.
  split; intros st; cbv zeta.
  - unfold_page. split_answers; repeat split.
  - unfold_app. split_answers; repeat split.
Qed.

(** X2. [loadExistingOpportunities] sends one authenticated
    [GET /opportunities], never throws, and changes the store only: the
    store becomes the body of the answer ([[]] for an empty body) when the
    request resolves and stays as it was when it is rejected.  The
    [error], [loading] and [agentStatus] cells are never touched, so a
    successful load does not remove an error banner. *)
Theorem loadExistingOpportunities_frame :
  (forall st,
      let r := OpportunitiesPage.loadExistingOpportunities env w st in
      completion r = Normal tt
      /\ sent (world r) = (sent w ++ [list_request])%list
      /\ state r =
         OpportunitiesPage.mkState
           (match list_opportunities (backend env) (sent w ++ [list_request])%list with
            | Resolved data => data_or_empty data
            | Rejected _ => OpportunitiesPage.opportunities st
            end)
           (OpportunitiesPage.loading st) (OpportunitiesPage.error st)
           (OpportunitiesPage.isAgentRunning st) (OpportunitiesPage.agentStatus st)
           (OpportunitiesPage.selectedOpportunity st)
           (OpportunitiesPage.isModalOpen st)
           (OpportunitiesPage.lastAnalysisTime st)
           (OpportunitiesPage.searchTerm st) (OpportunitiesPage.filterType st))
  /\ (forall st,
      let r := App.loadExistingOpportunities env w st in
      completion r = Normal tt
      /\ sent (world r) = (sent w ++ [list_request])%list
      /\ state r =
         App.mkState
           (match list_opportunities (backend env) (sent w ++ [list_request])%list with
            | Resolved data => data_or_empty data
            | Rejected _ => App.opportunities st
            end)
           (App.loading st) (App.chatMessages st) (App.chatInput st)
           (App.error st) (App.isAgentRunning st) (App.lastAnalysisTime st)
           (App.selectedTimeframe st) (App.marketStatus st)
           (App.selectedOpportunity st) (App.isModalOpen st)).
Proof.
  split; intros st; cbv zeta.
  - unfold_page. split_answers; repeat split. now destruct st.
  - unfold_app. split_answers; repeat split. now destruct st.
Qed.

(** X3. What a run of [runTechnicalAnalysis] leaves in the cells it does
    not own, and in [error] and [lastAnalysisTime], in both components:
    the error is [null] after the run exactly when both requests resolved
    (a banner shown before the run is gone then), [lastAnalysisTime] is
    the clock's reading after such a run and is what it was after a
    failed one, and the search term, the filter type, the agent status,
    the modal cells and the chat are never touched. *)
Theorem runTechnicalAnalysis_bookkeeping :
  (forall st,
      let r := OpportunitiesPage.runTechnicalAnalysis env w st in
      (OpportunitiesPage.error (state r) = None
       -> OpportunitiesPage.lastAnalysisTime (state r) = Some (toLocaleTimeString env))
      /\ (OpportunitiesPage.error (state r) <> None
          -> OpportunitiesPage.lastAnalysisTime (state r)
             = OpportunitiesPage.lastAnalysisTime st
             /\ OpportunitiesPage.opportunities (state r)
                = OpportunitiesPage.opportunities st)
      /\ OpportunitiesPage.searchTerm (state r) = OpportunitiesPage.searchTerm st
      /\ OpportunitiesPage.filterType (state r) = OpportunitiesPage.filterType st
      /\ OpportunitiesPage.agentStatus (state r) = OpportunitiesPage.agentStatus st
      /\ OpportunitiesPage.selectedOpportunity (state r)
         = OpportunitiesPage.selectedOpportunity st
      /\ OpportunitiesPage.isModalOpen (state r) = OpportunitiesPage.isModalOpen st)
  /\ (forall st,
      let r := App.runTechnicalAnalysis env w st in
      (App.error (state r) = None
       -> App.lastAnalysisTime (state r) = Some (toLocaleTimeString env))
      /\ (App.error (state r) <> None
          -> App.lastAnalysisTime (state r) = App.lastAnalysisTime st
             /\ App.opportunities (state r) = App.opportunities st)
      /\ App.chatMessages (state r) = App.chatMessages st
      /\ App.chatInput (state r) = App.chatInput st
      /\ App.selectedTimeframe (state r) = App.selectedTimeframe st
      /\ App.marketStatus (state r) = App.marketStatus st
      /\ App.selectedOpportunity (state r) = App.selectedOpportunity st
      /\ App.isModalOpen (state r) = App.isModalOpen st).
Proof.
  split; intros st; cbv zeta.
  - unfold_page. split_answers; repeat split; intros; congruence.
  - unfold_app. split_answers; repeat split; intros; congruence.
Qed.

End HealthCheck.

Lemma runTechnicalAnalysis_bookkeeping_witness :
  OpportunitiesPage.error
    (state (OpportunitiesPage.runTechnicalAnalysis serves_scenario quiet
              OpportunitiesPage.initial)) = None
  /\ OpportunitiesPage.lastAnalysisTime
       (state (OpportunitiesPage.runTechnicalAnalysis serves_scenario quiet
                 OpportunitiesPage.initial)) = Some "9:30:00 AM".
Proof.
  split; [reflexivity|].
  exact (proj1 (proj1 (runTechnicalAnalysis_bookkeeping serves_scenario quiet)
                      OpportunitiesPage.initial) eq_refl).
Defined.

Section Modal.

Variable env : Env.
Variable w : World.

(** X4. Opening and closing the detail overlay, in both components.
    [openModal] selects the row and opens the overlay, [closeModal]
    closes it and clears the selection: after either, the overlay is open
    exactly when a row is selected, and closing after opening gives back
    the state before the opening.  The operations that talk to the
    backend keep this agreement, and opening or closing never changes the
    store. *)
Theorem modal_open_close :
  (forall st opp w',
      page_modal_consistent (state (OpportunitiesPage.openModal opp env w st))
      /\ page_modal_consistent (state (OpportunitiesPage.closeModal env w st))
      /\ OpportunitiesPage.opportunities (state (OpportunitiesPage.openModal opp env w st))
         = OpportunitiesPage.opportunities st
      /\ OpportunitiesPage.opportunities (state (OpportunitiesPage.closeModal env w st))
         = OpportunitiesPage.opportunities st
      /\ (page_modal_consistent st ->
          OpportunitiesPage.isModalOpen st = false ->
          state (OpportunitiesPage.closeModal env w'
                   (state (OpportunitiesPage.openModal opp env w st))) = st)
      /\ (page_modal_consistent st ->
          page_modal_consistent (state (OpportunitiesPage.checkAgentHealth env w st))
          /\ page_modal_consistent
               (state (OpportunitiesPage.loadExistingOpportunities env w st))
          /\ page_modal_consistent
               (state (OpportunitiesPage.runTechnicalAnalysis env w st))))
  /\ (forall st opp w',
      app_modal_consistent (state (App.handleViewOpportunity opp env w st))
      /\ app_modal_consistent (state (App.handleCloseModal env w st))
      /\ App.opportunities (state (App.handleViewOpportunity opp env w st))
         = App.opportunities st
      /\ App.opportunities (state (App.handleCloseModal env w st))
         = App.opportunities st
      /\ (app_modal_consistent st ->
          App.isModalOpen st = false ->
          state (App.handleCloseModal env w'
                   (state (App.handleViewOpportunity opp env w st))) = st)
      /\ (app_modal_consistent st ->
          app_modal_consistent (state (App.checkAgentHealth env w st))
          /\ app_modal_consistent (state (App.loadExistingOpportunities env w st))
          /\ app_modal_consistent (state (App.runTechnicalAnalysis env w st))
          /\ app_modal_consistent (state (App.sendChatMessage env w st)))).
Proof.
  split; intros st opp w'.
  - unfold page_modal_consistent.
    split; [|split; [|split; [|split; [|split]]]].
    + unfold_page_all. split; [discriminate|reflexivity].
    + unfold_page_all. split; [discriminate|intros F; now elim F].
    + reflexivity.
    + reflexivity.
    + intros Hc Hclosed. destruct st as [o l e a s sel m t q f]; cbn in *.
      destruct sel as [x|]; [|now subst m].
      destruct Hc as [_ Hc]. rewrite Hc in Hclosed; discriminate.
    + intros Hc. repeat split; unfold_page_all; split_answers; cbn; tauto.
  - unfold app_modal_consistent.
    split; [|split; [|split; [|split; [|split]]]].
    + unfold_app_all. split; [discriminate|reflexivity].
    + unfold_app_all. split; [discriminate|intros F; now elim F].
    + reflexivity.
    + reflexivity.
    + intros Hc Hclosed. destruct st as [o l cm ci e a t tf ms sel m]; cbn in *.
      destruct sel as [x|]; [|now subst m].
      destruct Hc as [_ Hc]. rewrite Hc in Hclosed; discriminate.
    + intros Hc. split; [|split; [|split]].
      * unfold_app_all. split_answers; cbn; tauto.
      * unfold_app_all. split_answers; cbn; tauto.
      * unfold_app_all. split_answers; cbn; tauto.
      * unfold_app_all. destruct (negb _); cbn; [tauto|]. split_answers; cbn; tauto.
Qed.

End Modal.

Lemma modal_open_close_witness :
  page_modal_consistent OpportunitiesPage.initial
  /\ state (OpportunitiesPage.closeModal serves_scenario quiet
              (state (OpportunitiesPage.openModal AAPL serves_scenario quiet
                        OpportunitiesPage.initial)))
     = OpportunitiesPage.initial.
Proof.
  assert (H : page_modal_consistent OpportunitiesPage.initial)
    by (split; [discriminate|intros F; now elim F]).
  split; [exact H|].
  exact (proj1 (proj2 (proj2 (proj2 (proj2
           (proj1 (modal_open_close serves_scenario quiet)
                  OpportunitiesPage.initial AAPL quiet))))) H eq_refl).
Defined.

(* ================================================================== *)
(** * Colours, keys and panels of the Opportunities page *)
(* ================================================================== *)

Section Order.

Lemma SFcompare_finite (s1 s2 : bool) (m1 m2 : positive) (e1 e2 : Z) :
  SFcompare (S754_finite s1 m1 e1) (S754_finite s2 m2 e2)
  = Some match s1, s2 with
         | true, false => Lt
         | false, true => Gt
         | false, false =>
             match (e1 ?= e2)%Z with
             | Lt => Lt | Gt => Gt | Eq => (m1 ?= m2)%positive
             end
         | true, true =>
             match (e1 ?= e2)%Z with
             | Lt => Gt | Gt => Lt | Eq => CompOpp ((m1 ?= m2)%positive)
             end
         end.
Proof. reflexivity. Qed.

(** The order of the IEEE specification is transitive. *)
Lemma SFleb_trans (a b c : spec_float) :
  SFleb a b = true -> SFleb b c = true -> SFleb a c = true.
Proof.
  unfold SFleb.
  destruct a as [sa|sa| |sa ma ea], b as [sb|sb| |sb mb eb], c as [sc|sc| |sc mc ec];
    try (simpl; congruence);
    try (simpl; destruct sa, sb, sc; simpl; congruence);
    try (simpl; destruct sa, sb; simpl; congruence);
    try (simpl; destruct sa, sc; simpl; congruence);
    try (simpl; destruct sb, sc; simpl; congruence).
  all: rewrite ?SFcompare_finite.
  all: try (destruct sa, sb; simpl; try congruence;
            destruct (Z.compare_spec ea eb); try congruence;
            destruct (Pos.compare_spec ma mb); simpl; congruence).
  all: try (destruct sb, sc; simpl; try congruence;
            destruct (Z.compare_spec eb ec); try congruence;
            destruct (Pos.compare_spec mb mc); simpl; congruence).
  destruct sa, sb, sc; try (simpl; congruence);
    destruct (Z.compare_spec ea eb), (Z.compare_spec eb ec), (Z.compare_spec ea ec);
    try lia; try (simpl; congruence);
    destruct (Pos.compare_spec ma mb), (Pos.compare_spec mb mc), (Pos.compare_spec ma mc);
    try lia; simpl; congruence.
Qed.

Lemma ge_trans (x y z : JS.number) :
  JS.ge x y = true -> JS.ge y z = true -> JS.ge x z = true.
Proof.
  unfold JS.ge. rewrite !FloatAxioms.leb_spec. intros H1 H2.
  exact (SFleb_trans _ _ _ H2 H1).
Qed.

(** [x > y] entails [x >= y]. *)
Lemma gt_ge (x y : JS.number) : JS.gt x y = true -> JS.ge x y = true.
Proof.
  unfold JS.gt, JS.ge. rewrite FloatAxioms.leb_spec, FloatAxioms.ltb_spec.
  unfold SFltb, SFleb. now destruct (SFcompare _ _) as [[]|].
Qed.

(** No comparison holds of NaN. *)
Lemma ge_nan (x y : JS.number) : is_nan x = true -> JS.ge x y = false.
Proof.
  unfold is_nan, JS.ge. rewrite FloatAxioms.eqb_spec, FloatAxioms.leb_spec.
  unfold SFeqb, SFleb. destruct (Prim2SF x) as [s|s| |s m e] eqn:E.
  - destruct s; discriminate.
  - destruct s; discriminate.
  - intros _. now destruct (Prim2SF y).
  - rewrite SFcompare_finite. destruct s.
    + rewrite Z.compare_refl, Pos.compare_refl. discriminate.
    + rewrite Z.compare_refl, Pos.compare_refl. discriminate.
Qed.

Lemma lt_nan (x y : JS.number) : is_nan x = true -> JS.lt x y = false.
Proof.
  unfold is_nan, JS.lt. rewrite FloatAxioms.eqb_spec, FloatAxioms.ltb_spec.
  unfold SFeqb, SFltb. destruct (Prim2SF x) as [s|s| |s m e] eqn:E.
  - destruct s; discriminate.
  - destruct s; discriminate.
  - reflexivity.
  - rewrite SFcompare_finite. destruct s.
    + rewrite Z.compare_refl, Pos.compare_refl. discriminate.
    + rewrite Z.compare_refl, Pos.compare_refl. discriminate.
Qed.

(** Below a number that is not NaN: [x >= y] fails exactly when [x < y]
    or [x] is NaN. *)
Lemma not_ge_cases (x y : JS.number) :
  is_nan y = false ->
  JS.ge x y = false <-> JS.lt x y = true \/ is_nan x = true.
Proof.
  intros Hy. split.
  - intros H. destruct (is_nan x) eqn:Hx; [now right|left].
    now apply not_ge_lt.
  - intros [H|H]; [|now apply ge_nan].
    destruct (JS.ge x y) eqn:E; [|reflexivity].
    apply ge_lt_excl in E. congruence.
Qed.

End Order.

Section Cards.

Import Filter.

(** With an empty search term the filtered view is what the type filter
    keeps. *)
Lemma filtered_no_search (store : list Opportunity) (filterType : string) :
  filteredOpportunities store "" filterType
  = List.filter (matchesFilter filterType) store.
Proof. apply List.filter_ext. intros opp. reflexivity. Qed.

Lemma filter_all (A : Type) (p : A -> bool) (l : list A) :
  (forall x, p x = true) -> List.filter p l = l.
Proof.
  intros H. induction l as [|x l IH]; simpl; [reflexivity|].
  now rewrite H, IH.
Qed.

Lemma filter_length_mono (A : Type) (p q : A -> bool) (l : list A) :
  (forall x, p x = true -> q x = true) ->
  length (List.filter p l) <= length (List.filter q l).
Proof.
  intros H. induction l as [|x l IH]; simpl; [lia|].
  destruct (p x) eqn:Ep.
  - rewrite (H x Ep). simpl. lia.
  - destruct (q x); simpl; lia.
Qed.


(** X5. The colour of a card's setup badge agrees with the type filters:
    with an empty search term the "bullish" filter keeps exactly the rows
    whose badge is green; every row with a red badge passes the "bearish"
    filter; and a row that passes the "bearish" filter has a red badge
    unless it also carries a bullish keyword, in which case its badge is
    green (the bullish test comes first). *)
Theorem setup_colour_and_filters :
  (forall store,
      filteredOpportunities store "" "bullish"
      = List.filter
          (fun opp => OpportunitiesPage.getSetupTypeColor (setup_type opp)
                      =? "text-green-400 bg-green-500/20")
          store)
  /\ (forall opp,
        OpportunitiesPage.getSetupTypeColor (setup_type opp)
        = "text-red-400 bg-red-500/20" ->
        matchesFilter "bearish" opp = true)
  /\ (forall opp,
        matchesFilter "bearish" opp = true ->
        OpportunitiesPage.getSetupTypeColor (setup_type opp)
        = if matchesFilter "bullish" opp
          then "text-green-400 bg-green-500/20"
          else "text-red-400 bg-red-500/20").
Proof.
  assert (Hbull : forall opp, matchesFilter "bullish" opp = bullish_keywords opp).
  { intros opp. unfold matchesFilter. cbn. now rewrite !orb_false_r. }
  assert (Hbear : forall opp, matchesFilter "bearish" opp = bearish_keywords opp).
  { intros opp. unfold matchesFilter. cbn. now rewrite !orb_false_r. }
  assert (Hcol : forall opp,
             OpportunitiesPage.getSetupTypeColor (setup_type opp)
             = if bullish_keywords opp then "text-green-400 bg-green-500/20"
               else if bearish_keywords opp then "text-red-400 bg-red-500/20"
               else "text-blue-400 bg-blue-500/20") by reflexivity.
  split; [|split].
  - intros store. rewrite filtered_no_search. apply List.filter_ext.
    intros opp. rewrite Hbull, Hcol.
    destruct (bullish_keywords opp); [reflexivity|].
    destruct (bearish_keywords opp); reflexivity.
  - intros opp. rewrite Hbear, Hcol.
    destruct (bullish_keywords opp); [discriminate|].
    destruct (bearish_keywords opp); [reflexivity|discriminate].
  - intros opp. rewrite Hbear, Hbull, Hcol. intros ->.
    destruct (bullish_keywords opp); reflexivity.
Qed.

Lemma setup_colour_and_filters_witness :
  matchesFilter "bearish" TSLA = true
  /\ OpportunitiesPage.getSetupTypeColor (setup_type TSLA) = "text-red-400 bg-red-500/20".
Proof.
  split; [reflexivity|].
  exact (proj2 (proj2 setup_colour_and_filters) TSLA eq_refl).
Defined.

(** X6. The colour of the confidence figure: green exactly from 0.8 up,
    yellow exactly from 0.6 up to, but not including, 0.8, and orange
    exactly below 0.6 and for NaN.  Every row that the "high-confidence"
    filter keeps (confidence at least 0.7) is shown in green or yellow,
    never in orange. *)
Theorem confidence_colour_of_high_confidence (store : list Opportunity) (searchTerm : string) :
  (forall opp,
      In opp (filteredOpportunities store searchTerm "high-confidence") ->
      OpportunitiesPage.getConfidenceColor (confidence_score opp) = "text-green-400"
      \/ OpportunitiesPage.getConfidenceColor (confidence_score opp) = "text-yellow-400")
  /\ (forall x, JS.ge x 0.8 = true ->
                OpportunitiesPage.getConfidenceColor x = "text-green-400")
  /\ (forall x, is_nan x = true ->
                OpportunitiesPage.getConfidenceColor x = "text-orange-400")
  /\ (forall x, OpportunitiesPage.getConfidenceColor x = "text-green-400"
                <-> JS.ge x 0.8 = true)
  /\ (forall x, OpportunitiesPage.getConfidenceColor x = "text-yellow-400"
                <-> JS.ge x 0.6 = true /\ JS.lt x 0.8 = true)
  /\ (forall x, OpportunitiesPage.getConfidenceColor x = "text-orange-400"
                <-> JS.lt x 0.6 = true \/ is_nan x = true).
Proof.
  split; [|split; [|split; [|split; [|split]]]];
    [| | |intros x; unfold OpportunitiesPage.getConfidenceColor..].
  4:{ destruct (JS.ge x 0.8); [tauto|].
      destruct (JS.ge x 0.6); split; congruence. }
  4:{ destruct (JS.ge x 0.8) eqn:H8.
      - split; [discriminate|]. intros [_ Hlt].
        apply ge_lt_excl in H8. congruence.
      - apply (not_ge_cases x 0.8 eq_refl) in H8.
        destruct (JS.ge x 0.6) eqn:H6.
        + split; [intros _|reflexivity]. split; [reflexivity|].
          destruct H8 as [H8|H8]; [exact H8|].
          rewrite (ge_nan _ _ H8) in H6. discriminate.
        + split; [discriminate|]. intros [F _]. discriminate. }
  4:{ destruct (JS.ge x 0.8) eqn:H8.
      - split; [discriminate|].
        assert (H6 : JS.ge x 0.6 = true) by (apply (ge_trans _ _ _ H8); reflexivity).
        intros [Hlt|Hnan].
        + apply ge_lt_excl in H6. congruence.
        + rewrite (ge_nan _ _ Hnan) in H8. discriminate.
      - destruct (JS.ge x 0.6) eqn:H6.
        + split; [discriminate|]. intros [Hlt|Hnan].
          * apply ge_lt_excl in H6. congruence.
          * rewrite (ge_nan _ _ Hnan) in H6. discriminate.
        + split; [intros _|reflexivity].
          now apply (not_ge_cases x 0.6 eq_refl). }
  - intros opp Hin. apply filter_In in Hin as [_ Hin].
    apply andb_prop in Hin as [_ Hin].
    assert (H07 : JS.ge (confidence_score opp) 0.7 = true) by exact Hin.
    assert (H06 : JS.ge (confidence_score opp) 0.6 = true)
      by (apply (ge_trans _ _ _ H07); reflexivity).
    unfold OpportunitiesPage.getConfidenceColor. rewrite H06.
    destruct (JS.ge (confidence_score opp) 0.8); [now left|now right].
  - intros x H. unfold OpportunitiesPage.getConfidenceColor. now rewrite H.
  - intros x H. unfold OpportunitiesPage.getConfidenceColor.
    now rewrite !(ge_nan _ _ H).
Qed.

Lemma confidence_colour_of_high_confidence_witness :
  In AAPL (filteredOpportunities [AAPL; TSLA] "" "high-confidence")
  /\ (OpportunitiesPage.getConfidenceColor (confidence_score AAPL) = "text-green-400"
      \/ OpportunitiesPage.getConfidenceColor (confidence_score AAPL) = "text-yellow-400").
Proof.
  assert (H : In AAPL (filteredOpportunities [AAPL; TSLA] "" "high-confidence"))
    by (left; reflexivity).
  split; [exact H|].
  exact (proj1 (confidence_colour_of_high_confidence [AAPL; TSLA] "") AAPL H).
Defined.

(** The keys of a view whose rows all have a truthy id are the ids. *)
Lemma cardKeys_ids (view : list Opportunity) :
  Forall truthy_id view ->
  OpportunitiesPage.cardKeys view = (fun opp => default 0%Z (id opp)) <$> view.
Proof.
  intros H. unfold OpportunitiesPage.cardKeys.
  rewrite <- (imap_const (fun opp => default 0%Z (id opp)) view).
  apply imap_ext. intros i opp Hl.
  rewrite Forall_forall in H.
  destruct (H opp) as (z & Hz & Hnz).
  { eapply list_elem_of_lookup_2, Hl. }
  unfold OpportunitiesPage.cardKey. rewrite Hz. simpl.
  destruct (Z.eqb_spec z 0); [contradiction|]. now rewrite Hz.
Qed.

(** X7. React keys of the cards: when every row of the store has a
    truthy id (present and not 0) and the ids are pairwise distinct, the
    keys [opportunity.id || index] of the cards of every filtered view are
    pairwise distinct. *)
Theorem cardKeys_distinct (store : list Opportunity) (searchTerm filterType : string) :
  Forall truthy_id store ->
  NoDup (id <$> store) ->
  NoDup (OpportunitiesPage.cardKeys (filteredOpportunities store searchTerm filterType)).
Proof.
  intros Hids Hnd.
  pose proof (filter_sublist
                (fun opp => matchesSearch searchTerm opp && matchesFilter filterType opp)
                store) as Hsub.
  fold (filteredOpportunities store searchTerm filterType) in Hsub.
  set (view := filteredOpportunities store searchTerm filterType) in *.
  assert (Hview : Forall truthy_id view).
  { rewrite Forall_forall in Hids. apply Forall_forall. intros opp Hopp.
    apply Hids, list_elem_of_In, (sublist_In _ _ Hsub), list_elem_of_In, Hopp. }
  rewrite (cardKeys_ids view Hview).
  assert (Hnd' : NoDup (id <$> view)).
  { eapply sublist_NoDup; [exact Hnd|]. now apply fmap_sublist. }
  clear Hsub Hnd Hids. induction view as [|opp view IH]; [constructor|].
  rewrite fmap_cons in Hnd'. apply NoDup_cons in Hnd' as [Hnotin Hnd'].
  apply Forall_cons in Hview as [Hopp Hview].
  rewrite fmap_cons. apply NoDup_cons. split; [|now apply IH].
  intros Hin. apply Hnotin.
  apply list_elem_of_fmap in Hin as (opp' & Heq & Hin').
  apply list_elem_of_fmap. exists opp'. split; [|exact Hin'].
  rewrite Forall_forall in Hview.
  destruct Hopp as (z & Hz & _).
  destruct (Hview opp') as (z' & Hz' & _); [exact Hin'|].
  rewrite Hz, Hz' in *. simpl in Heq. congruence.
Qed.

Lemma cardKeys_distinct_witness :
  Forall truthy_id [AAPL; TSLA]
  /\ NoDup (id <$> [AAPL; TSLA])
  /\ NoDup (OpportunitiesPage.cardKeys (filteredOpportunities [AAPL; TSLA] "a" "all")).
Proof.
  assert (H1 : Forall truthy_id [AAPL; TSLA]).
  { repeat constructor; eexists; (split; [reflexivity|discriminate]). }
  assert (H2 : NoDup (id <$> [AAPL; TSLA])).
  { apply NoDup_cons. split; [|apply NoDup_singleton].
    intros H. apply list_elem_of_singleton in H. discriminate. }
  split; [exact H1|]. split; [exact H2|].
  exact (cardKeys_distinct [AAPL; TSLA] "a" "all" H1 H2).
Defined.

(** Without ids the index is the key, and an index can meet an id: the
    second card of this view has the same key as the first. *)
Example cardKeys_collision :
  OpportunitiesPage.cardKeys
    [mkOpportunity (Some 1%Z) "AAPL" "Breakout" None 0.9;
     mkOpportunity None "TSLA" "Breakout" None 0.9]
  = [1%Z; 1%Z].
Proof. reflexivity. Qed.

Lemma length_append (s t : string) :
  String.length (s ++ t) = String.length s + String.length t.
Proof. induction s as [|c s IH]; simpl; [reflexivity|now rewrite IH]. Qed.

Lemma substring_0_length (n : nat) (s : string) :
  String.length (String.substring 0 n s) = Nat.min n (String.length s).
Proof.
  revert s. induction n as [|n IH]; intros [|c s]; simpl; try reflexivity.
  now rewrite IH.
Qed.

Lemma substring_0_prefix (n : nat) (s : string) :
  String.prefix (String.substring 0 n s) s = true.
Proof.
  revert s. induction n as [|n IH]; intros [|c s]; simpl; try reflexivity.
  destruct (ascii_dec c c); [apply IH|congruence].
Qed.

Lemma substring_0_all (n : nat) (s : string) :
  String.length s <= n -> String.substring 0 n s = s.
Proof.
  revert s. induction n as [|n IH]; intros [|c s]; simpl; intros H;
    try reflexivity; try lia.
  rewrite IH by lia. reflexivity.
Qed.

(** X8. The "Key Insight" preview of a card: nothing is rendered for an
    absent or empty rationale; otherwise the card shows the first
    100 code units of the rationale (all of it when it is shorter)
    followed by "...", so at most 103 code units, and the dots are there
    even when nothing was cut. *)
Theorem rationalePreview_shape :
  OpportunitiesPage.rationalePreview None = None
  /\ OpportunitiesPage.rationalePreview (Some "") = None
  /\ (forall rationale,
        rationale <> "" ->
        exists shown,
          OpportunitiesPage.rationalePreview (Some rationale) = Some (shown ++ "...")
          /\ String.prefix shown rationale = true
          /\ String.length shown = Nat.min 100 (String.length rationale)
          /\ String.length (shown ++ "...") <= 103
          /\ (String.length rationale <= 100 -> shown = rationale)).
Proof.
  split; [reflexivity|]. split; [reflexivity|].
  intros rationale Hne. exists (String.substring 0 100 rationale).
  unfold OpportunitiesPage.rationalePreview, JS.truthy.
  destruct (String.eqb_spec rationale ""); [contradiction|]. cbn [negb].
  split; [reflexivity|]. split; [apply substring_0_prefix|].
  split; [apply substring_0_length|]. split.
  - rewrite length_append, substring_0_length.
    change (String.length "...") with 3. lia.
  - apply substring_0_all.
Qed.

Lemma rationalePreview_shape_witness :
  exists shown,
    OpportunitiesPage.rationalePreview (Some "RSI oversold") = Some (shown ++ "...")
    /\ String.prefix shown "RSI oversold" = true
    /\ String.length shown = Nat.min 100 (String.length "RSI oversold")
    /\ String.length (shown ++ "...") <= 103
    /\ (String.length "RSI oversold" <= 100 -> shown = "RSI oversold").
Proof.
  apply (proj2 (proj2 rationalePreview_shape) "RSI oversold"). discriminate.
Defined.

(** X9. The panel shown when the filtered view has no card.  An empty
    store always shows it.  Its Run Analysis button is there exactly when
    the title is "No opportunities found", which happens only when the
    store itself is empty; the button is then disabled exactly while
    [loading] is set.  When the store has rows but none passes the search
    and the filter, the title is "No matching opportunities" and there is
    no button. *)
Theorem emptyPanel_run_button (st : OpportunitiesPage.State) :
  (OpportunitiesPage.opportunities st = [] -> OpportunitiesPage.emptyPanel st <> None)
  /\ (forall p,
        OpportunitiesPage.emptyPanel st = Some p ->
        (OpportunitiesPage.runButton p <> None
         <-> OpportunitiesPage.title p = "No opportunities found")
        /\ (OpportunitiesPage.runButton p <> None ->
            OpportunitiesPage.opportunities st = []
            /\ OpportunitiesPage.runButton p = Some (OpportunitiesPage.loading st))
        /\ (OpportunitiesPage.opportunities st <> [] ->
            OpportunitiesPage.title p = "No matching opportunities"
            /\ OpportunitiesPage.runButton p = None)).
Proof.
  unfold OpportunitiesPage.emptyPanel, OpportunitiesPage.filteredOpportunities.
  destruct st as [store l e a s sel m t searchTerm filterType].
  cbn [OpportunitiesPage.opportunities OpportunitiesPage.searchTerm
       OpportunitiesPage.filterType OpportunitiesPage.loading].
  split.
  - intros ->. discriminate.
  - intros p.
    destruct (0 <? length (filteredOpportunities store searchTerm filterType))%nat eqn:El;
      [discriminate|].
    apply Nat.ltb_ge in El.
    unfold JS.truthy.
    destruct (String.eqb_spec searchTerm "") as [->|Hs];
      destruct (String.eqb_spec filterType "all") as [->|Hf]; cbn [negb orb andb];
      intros [= <-]; cbn [OpportunitiesPage.title OpportunitiesPage.runButton].
    + assert (Hstore : store = []).
      { rewrite filtered_no_search, filter_all in El by reflexivity.
        destruct store; [reflexivity|simpl in El; lia]. }
      repeat split; try congruence; try discriminate.
    + repeat split; try congruence; try discriminate.
    + repeat split; try congruence; try discriminate.
    + repeat split; try congruence; try discriminate.
Qed.

Lemma emptyPanel_run_button_witness :
  OpportunitiesPage.emptyPanel OpportunitiesPage.initial
  = Some (OpportunitiesPage.mkEmptyPanel
            "No opportunities found"
            "Run the technical analysis to discover trading opportunities"
            (Some false))
  /\ OpportunitiesPage.opportunities OpportunitiesPage.initial = [].
Proof.
  split; [reflexivity|].
  exact (proj1 (proj1 (proj2 (proj2 (emptyPanel_run_button OpportunitiesPage.initial) _ eq_refl))
                      ltac:(discriminate))).
Defined.

End Cards.

(* ================================================================== *)
(** * The Home page *)
(* ================================================================== *)

Ltac unfold_served :=
  unfold HomeServed.loadDashboardData, HomeServed.setAgentStatus,
    HomeServed.setOpportunities, HomeServed.setStats;
  unfold_ops.

Section ServedRows.

Lemma first_thrower_cases (rows : list HomeServed.Row) :
  match first_thrower rows with
  | Some thrower => True
  | None => exists opps, rows = map HomeServed.of_opportunity opps
  end.
Proof.
  unfold first_thrower. induction rows as [|row rows IH]; [now exists []|].
  cbn [List.find]. unfold carries_setup_type at 1.
  destruct row as [i t [s|] p c]; cbn; [|exact I].
  destruct (List.find _ rows); [exact I|].
  destruct IH as [opps ->]. now exists (mkOpportunity i t s p c :: opps).
Qed.

Lemma count_thrower (a b : string) (rows : list HomeServed.Row) (thrower : HomeServed.Row) :
  first_thrower rows = Some thrower ->
  HomeServed.count (HomeServed.keywords a b) rows = inr thrower.
Proof.
  unfold first_thrower. induction rows as [|row rows IH]; [discriminate|].
  cbn [List.find HomeServed.count]. unfold carries_setup_type at 1, HomeServed.keywords at 1.
  destruct (HomeServed.setup_type row); cbn.
  - intros H. now rewrite (IH H).
  - now intros [= ->].
Qed.

Lemma count_opportunities (a b : string) (opps : list Opportunity) :
  HomeServed.count (HomeServed.keywords a b) (map HomeServed.of_opportunity opps)
  = inl (length (List.filter
                   (fun opp => JS.includes (JS.toLowerCase (setup_type opp)) a
                               || JS.includes (JS.toLowerCase (setup_type opp)) b)
                   opps)).
Proof.
  induction opps as [|[i t s p c] opps IH]; [reflexivity|].
  cbn [map HomeServed.of_opportunity HomeServed.count List.filter setup_type].
  unfold HomeServed.keywords at 1. cbn [HomeServed.setup_type].
  rewrite IH. now destruct (_ || _).
Qed.

Lemma highConfidence_opportunities (opps : list Opportunity) :
  length (List.filter (fun row => JS.gt (HomeServed.confidence_score row) 0.7)
                      (map HomeServed.of_opportunity opps))
  = length (List.filter (fun opp => JS.gt (confidence_score opp) 0.7) opps).
Proof.
  induction opps as [|[i t s p c] opps IH]; [reflexivity|].
  cbn [map HomeServed.of_opportunity List.filter HomeServed.confidence_score
       confidence_score].
  destruct (JS.gt c 0.7); cbn [length]; now rewrite IH.
Qed.

Lemma computeStats_opportunities typeError (opps : list Opportunity)
    (env : Env) (w : World) (st : HomeServed.State) :
  HomeServed.computeStats typeError (map HomeServed.of_opportunity opps) env w st
  = (Normal (HomeStats.compute opps), w, st).
Proof.
  unfold HomeServed.computeStats. cbv zeta.
  rewrite !count_opportunities, highConfidence_opportunities, length_map.
  reflexivity.
Qed.

Lemma computeStats_thrower typeError (rows : list HomeServed.Row) thrower
    (env : Env) (w : World) (st : HomeServed.State) :
  first_thrower rows = Some thrower ->
  HomeServed.computeStats typeError rows env w st
  = (Throw (mkError (typeError thrower)), w, st).
Proof.
  intros H. unfold HomeServed.computeStats. cbv zeta.
  now rewrite (count_thrower _ _ _ _ H).
Qed.

#[local] Arguments HomeServed.computeStats : simpl never.

Variable env : Env.
Variable w : World.

(** X10. [loadDashboardData] on rows as they are served.  It never throws
    and never leaves the probe state "checking".  The status ends
    "connected" exactly when the health check and the list fetch both
    resolve and every row served carries a string [setup_type]; the store
    and the stats are then the rows served and their stats.  When a
    request fails the status is "disconnected" and the store and the
    stats are as they were (the list is not requested when the health
    check fails).  When both requests resolve but a row lacks a string
    [setup_type], the stats throw inside the [try] after the store was
    replaced: the status is "disconnected", the store holds the rows
    served, the stats are still the old ones, and the console has the
    [TypeError].  On a backend that serves rows of the data model this is
    [Home.loadDashboardData]. *)
Theorem loadDashboardData_outcome
    (typeError : HomeServed.Row -> string)
    (server : list Request -> Outcome (option (list HomeServed.Row)))
    (st : HomeServed.State) :
  let r := HomeServed.loadDashboardData typeError server env w st in
  let log1 := (sent w ++ [Get "http://localhost:8001/health" []])%list in
  let log2 :=
    (log1 ++ [Get "http://localhost:8001/opportunities"
                  [("Authorization", "Bearer dev-key-12345")]])%list in
  let kept status :=
    HomeServed.mkState (HomeServed.opportunities st) status (HomeServed.stats st) in
  completion r = Normal tt
  /\ match health (backend env) log1 with
     | Rejected _ => sent (world r) = log1 /\ state r = kept "disconnected"
     | Resolved _ =>
         sent (world r) = log2
         /\ match server log2 with
            | Rejected _ => state r = kept "disconnected"
            | Resolved data =>
                let rows := match data with Some rows => rows | None => [] end in
                match first_thrower rows with
                | None =>
                    exists opps,
                      rows = map HomeServed.of_opportunity opps
                      /\ state r
                         = HomeServed.mkState rows "connected" (HomeStats.compute opps)
                | Some thrower =>
                    state r
                    = HomeServed.mkState rows "disconnected" (HomeServed.stats st)
                    /\ console (world r)
                       = (console w ++ [["Failed to load dashboard data:";
                                         typeError thrower]])%list
                end
            end
     end
  /\ (forall st0 : Home.State,
         state (HomeServed.loadDashboardData typeError (served_by env) env w
                  (served_state st0))
         = served_state (state (Home.loadDashboardData env w st0))).
Proof.
  cbv zeta. split; [|split].
  - unfold_served. destruct (health _ _); cbn; [|reflexivity].
    destruct (server _) as [body|msg]; cbn; [|reflexivity].
    set (rows := match body with Some rows => rows | None => [] end).
    pose proof (first_thrower_cases rows) as Hc.
    destruct (first_thrower rows) as [thrower|] eqn:Ef.
    + rewrite (computeStats_thrower typeError rows thrower _ _ _ Ef). reflexivity.
    + destruct Hc as [opps ->]. rewrite computeStats_opportunities. reflexivity.
  - unfold_served.
    change (API_BASE_URL ++ "/health") with "http://localhost:8001/health".
    destruct (health _ _); cbn; [|split; reflexivity].
    change (sent w ++ [health_request])%list
      with (sent w ++ [Get "http://localhost:8001/health" []])%list.
    destruct (server _) as [body|msg] eqn:Es; cbn.
    + set (rows := match body with Some rows => rows | None => [] end).
      pose proof (first_thrower_cases rows) as Hc.
      destruct (first_thrower rows) as [thrower|] eqn:Ef.
      * rewrite (computeStats_thrower typeError rows thrower _ _ _ Ef). cbn.
        repeat split.
      * destruct Hc as [opps Hopps]. rewrite Hopps.
        rewrite computeStats_opportunities. cbn. split; [reflexivity|].
        exists opps. split; reflexivity.
    + split; reflexivity.
  - intros st0. unfold served_by, served_state. unfold_served. unfold_home.
    destruct (health _ _); cbn; [|reflexivity].
    destruct (list_opportunities _ _) as [[rows|]|msg]; cbn;
      [rewrite computeStats_opportunities|..]; reflexivity.
Qed.

End ServedRows.

(** Both requests resolve, and the second row served has no
    [setup_type]: the store is replaced, the status is "disconnected" and
    the stats are the old ones. *)
Lemma loadDashboardData_outcome_witness :
  state (HomeServed.loadDashboardData (fun _ => "TypeError")
           (fun _ => Resolved
                       (Some [HomeServed.of_opportunity AAPL;
                              HomeServed.mkRow (Some 9%Z) "XYZ" None None 0.9]))
           serves_scenario quiet (served_state Home.initial))
  = HomeServed.mkState
      [HomeServed.of_opportunity AAPL;
       HomeServed.mkRow (Some 9%Z) "XYZ" None None 0.9]
      "disconnected" HomeStats.initial.
Proof.
  exact (proj1 (proj2 (proj1 (proj2
           (loadDashboardData_outcome serves_scenario quiet (fun _ => "TypeError")
              (fun _ => Resolved
                          (Some [HomeServed.of_opportunity AAPL;
                                 HomeServed.mkRow (Some 9%Z) "XYZ" None None 0.9]))
              (served_state Home.initial)))))).
Defined.

Section HomePage.

Variable env : Env.
Variable w : World.

(** X11. The status line of the Home page.  The text and the colour go
    together: "AI Agent Connected" is green, "AI Agent Offline" is red,
    and every other status, the initial "checking" included, reads
    "Checking Connection..." in yellow.  Once [loadDashboardData] has
    run, the line never reads "Checking Connection..." again. *)
Theorem status_line_after_load (st : Home.State) :
  (forall status,
      (Home.getStatusText status = "AI Agent Connected"
       <-> Home.getStatusColor status = "text-green-400")
      /\ (Home.getStatusText status = "AI Agent Offline"
          <-> Home.getStatusColor status = "text-red-400")
      /\ (Home.getStatusText status = "Checking Connection..."
          <-> Home.getStatusColor status = "text-yellow-400"))
  /\ Home.getStatusText (Home.agentStatus Home.initial) = "Checking Connection..."
  /\ (let status := Home.agentStatus (state (Home.loadDashboardData env w st)) in
      Home.getStatusText status = "AI Agent Connected"
      \/ Home.getStatusText status = "AI Agent Offline").
Proof.
  split; [|split; [reflexivity|]].
  - intros status. unfold Home.getStatusText, Home.getStatusColor.
    destruct (status =? "connected"); [repeat split; congruence|].
    destruct (status =? "disconnected"); repeat split; congruence.
  - cbv zeta. unfold_home. split_answers; auto.
Qed.

End HomePage.

Section HomeStatsProperties.

Import Filter.

(** X12. The counters of the Home page against the views of the
    Opportunities page, on every store: the bullish and the bearish
    counter are the sizes of the "bullish" and "bearish" views (empty
    search term), the total is the size of the "all" view, and no counter
    exceeds the total; the high-confidence counter, which compares with
    [>], is at most the size of the "high-confidence" view. *)
Theorem home_counters_and_views (store : list Opportunity) :
  let s := HomeStats.compute store in
  HomeStats.totalOpportunities s = length (filteredOpportunities store "" "all")
  /\ HomeStats.bullishSetups s = length (filteredOpportunities store "" "bullish")
  /\ HomeStats.bearishSetups s = length (filteredOpportunities store "" "bearish")
  /\ HomeStats.highConfidence s
     <= length (filteredOpportunities store "" "high-confidence")
  /\ HomeStats.bullishSetups s <= HomeStats.totalOpportunities s
  /\ HomeStats.bearishSetups s <= HomeStats.totalOpportunities s
  /\ HomeStats.highConfidence s <= HomeStats.totalOpportunities s.
Proof.
  cbv zeta. unfold HomeStats.compute. cbn [HomeStats.totalOpportunities
    HomeStats.bullishSetups HomeStats.bearishSetups HomeStats.highConfidence].
  rewrite !filtered_no_search.
  assert (Hbull : forall opp, matchesFilter "bullish" opp = bullish_keywords opp).
  { intros opp. unfold matchesFilter. cbn. now rewrite !orb_false_r. }
  assert (Hbear : forall opp, matchesFilter "bearish" opp = bearish_keywords opp).
  { intros opp. unfold matchesFilter. cbn. now rewrite !orb_false_r. }
  split; [now rewrite filter_all by reflexivity|].
  split; [f_equal; apply List.filter_ext; intros; now rewrite Hbull|].
  split; [f_equal; apply List.filter_ext; intros; now rewrite Hbear|].
  split; [apply filter_length_mono; intros opp H; now apply gt_ge in H|].
  repeat split; apply List.filter_length_le.
Qed.

End HomeStatsProperties.

(* ================================================================== *)
(** * The chat of the [App] component *)
(* ================================================================== *)

Section ChatExchange.

Variable env : Env.
Variable w : World.

(** X13. A chat message that is not blank.  [sendChatMessage] sends one
    [POST] to [http://localhost:8001/chat], with the bearer token, whose
    body carries the input as it was typed (not trimmed); it never
    throws, empties the input, and appends exactly two messages to
    the conversation: the user's text, then the assistant's reply or, when
    the request fails, the assistant message "Sorry, I encountered an
    error: " followed by the failure.  The earlier messages and every
    other cell, the [error] banner included, are left as they were. *)
Theorem sendChatMessage_exchange (st : App.State) :
  all_whitespace (App.chatInput st) = false ->
  let r := App.sendChatMessage env w st in
  let text := App.chatInput st in
  let request :=
    Post "http://localhost:8001/chat" (ChatBody text)
         [("Authorization", "Bearer dev-key-12345");
          ("Content-Type", "application/json")] in
  let answer :=
    match chat (backend env) (sent w ++ [request])%list with
    | Resolved reply => reply
    | Rejected msg => "Sorry, I encountered an error: " ++ msg
    end in
  completion r = Normal tt
  /\ world r = mkWorld (sent w ++ [request])%list (console w)
  /\ state r =
     App.mkState
       (App.opportunities st) (App.loading st)
       (App.chatMessages st
        ++ [App.mkMessage "user" text; App.mkMessage "assistant" answer])%list
       "" (App.error st) (App.isAgentRunning st) (App.lastAnalysisTime st)
       (App.selectedTimeframe st) (App.marketStatus st)
       (App.selectedOpportunity st) (App.isModalOpen st).
Proof.
  intros Hblank. cbv zeta.
  assert (Htrim : JS.truthy (JS.trim (App.chatInput st)) = true).
  { unfold JS.truthy. destruct (String.eqb_spec (JS.trim (App.chatInput st)) "") as [E|E];
      [|reflexivity].
    apply trim_empty_iff in E. congruence. }
  change (Post "http://localhost:8001/chat" (ChatBody (App.chatInput st))
               [("Authorization", "Bearer dev-key-12345");
                ("Content-Type", "application/json")])
    with (chat_request (App.chatInput st)).
  unfold App.sendChatMessage. unfold_app. rewrite Htrim. cbn.
  split_answers; repeat split; now rewrite <- app_assoc.
Qed.

End ChatExchange.

Lemma sendChatMessage_exchange_witness :
  all_whitespace " hi " = false
  /\ sent (world (App.sendChatMessage list_fails quiet
                    (App.mkState [] false [] " hi " None false None "1D" "OPEN"
                                 None false)))
     = [Post "http://localhost:8001/chat" (ChatBody " hi ")
             [("Authorization", "Bearer dev-key-12345");
              ("Content-Type", "application/json")]]
  /\ App.chatMessages
       (state (App.sendChatMessage list_fails quiet
                 (App.mkState [] false [] " hi " None false None "1D" "OPEN" None false)))
     = [App.mkMessage "user" " hi "; App.mkMessage "assistant" "Hello"].
Proof.
  split; [reflexivity|].
  split; [exact (f_equal sent
                   (proj1 (proj2 (sendChatMessage_exchange list_fails quiet
                                    (App.mkState [] false [] " hi " None false None
                                                 "1D" "OPEN" None false)
                                    eq_refl))))|].
  exact (f_equal App.chatMessages
           (proj2 (proj2 (sendChatMessage_exchange list_fails quiet
                            (App.mkState [] false [] " hi " None false None
                                         "1D" "OPEN" None false)
                            eq_refl)))).
Defined.

(* ================================================================== *)
(** * The detail overlay *)
(* ================================================================== *)

Ltac unfold_modal :=
  unfold DetailModal.openEffect, DetailModal.fetchOpportunityDetails,
    DetailModal.toggleSection, DetailModal.checkMobile,
    DetailModal.setDetails, DetailModal.setLoading, DetailModal.setError,
    DetailModal.setExpandedSections, DetailModal.setIsMobile;
  unfold_ops.

Section DetailFetch.

Variable Details : Type.
Variable server : list Request -> Outcome (option Details).
Variable env : Env.
Variable w : World.

(** X14. [fetchOpportunityDetails] sends one request, never throws and
    always ends with [loading] off.  On success the body replaces
    [details] and the error is cleared; on failure the error reads
    "Failed to load opportunity details: " followed by the failure, and
    [details] keeps what an earlier fetch stored.  The section flags and
    [isMobile] are not touched. *)
Theorem fetchOpportunityDetails_outcome
    (opportunity : Opportunity) (st : DetailModal.State Details) :
  let r := DetailModal.fetchOpportunityDetails server opportunity env w st in
  let log := (sent w ++ [DetailModal.details_request opportunity])%list in
  completion r = Normal tt
  /\ sent (world r) = log
  /\ state r =
     match server log with
     | Resolved body =>
         DetailModal.mkState body false None
           (DetailModal.expandedSections st) (DetailModal.isMobile st)
     | Rejected msg =>
         DetailModal.mkState (DetailModal.details st) false
           (Some ("Failed to load opportunity details: " ++ msg))
           (DetailModal.expandedSections st) (DetailModal.isMobile st)
     end.
Proof.
  cbv zeta. unfold_modal. split_answers; repeat split.
Qed.

(** X15. What the overlay shows while and after details are fetched.  A
    fetch is its part up to the [await] followed, when the answer
    arrives, by its continuation.  With one request on its way the
    overlay shows the spinner, and once it is answered the payload, an
    empty body when the answer has none, or the error block.  With two
    requests on their way (row [a] opened, then row [b]) whose answers
    arrive in the other order, the spinner goes when the first answer
    arrives, and what is on screen in the end is decided by the answer
    that arrived last: the payload of [a], although [b] is the row open,
    unless [b]'s request failed, whose error block then stays.  Closed,
    the overlay shows nothing. *)
Theorem overlay_after_fetch
    (a b : Opportunity) (answer_a answer_b : Outcome (option Details))
    (st : DetailModal.State Details) :
  let shows (answer : Outcome (option Details)) :=
    match answer with
    | Resolved (Some payload) => DetailModal.Content payload
    | Resolved None => DetailModal.Empty
    | Rejected msg =>
        DetailModal.ErrorBlock ("Failed to load opportunity details: " ++ msg)
    end in
  let one := DetailModal.fetchStart a env w st in
  let two := DetailModal.fetchStart b env (world one) (state one) in
  let b_answered := DetailModal.fetchSettle answer_b env (world two) (state two) in
  let a_answered :=
    DetailModal.fetchSettle answer_a env (world b_answered) (state b_answered) in
  DetailModal.fetchOpportunityDetails server a env w st
  = DetailModal.fetchSettle
      (server (sent w ++ [DetailModal.details_request a])%list)
      env (world one) (state one)
  /\ sent (world one) = (sent w ++ [DetailModal.details_request a])%list
  /\ DetailModal.view true (state one) = DetailModal.Spinner
  /\ DetailModal.view true
       (state (DetailModal.fetchSettle answer_a env (world one) (state one)))
     = shows answer_a
  /\ DetailModal.view true (state two) = DetailModal.Spinner
  /\ DetailModal.view true (state b_answered) = shows answer_b
  /\ DetailModal.view true (state a_answered)
     = match answer_a, answer_b with
       | Resolved _, Rejected _ => shows answer_b
       | _, _ => shows answer_a
       end
  /\ (forall st' : DetailModal.State Details,
         DetailModal.view false st' = DetailModal.Closed).
Proof.
  cbv zeta. unfold DetailModal.view, DetailModal.fetchStart, DetailModal.fetchSettle,
    DetailModal.send, DetailModal.settle.
  unfold_modal.
  split; [now destruct (server _)|].
  split; [reflexivity|]. split; [reflexivity|].
  split; [now destruct answer_a as [[pa|]|ma]|].
  split; [reflexivity|].
  split; [now destruct answer_b as [[pb|]|mb]|].
  split; [now destruct answer_a as [[pa|]|ma], answer_b as [[pb|]|mb]|].
  reflexivity.
Qed.

(** X16. The effect that runs when the overlay's props change.  It never
    throws.  When the overlay is closed or no row is selected it sends
    nothing and leaves the state alone, logging one console line;
    otherwise it sends the details request of the selected row and leaves
    the state that [fetchOpportunityDetails] leaves. *)
Theorem openEffect_guard
    (opportunity : option Opportunity) (isOpen : bool)
    (st : DetailModal.State Details) :
  let r := DetailModal.openEffect server opportunity isOpen env w st in
  completion r = Normal tt
  /\ match opportunity, isOpen with
     | Some opp, true =>
         sent (world r) = (sent w ++ [DetailModal.details_request opp])%list
         /\ state r = state (DetailModal.fetchOpportunityDetails server opp env w st)
     | _, _ =>
         world r
         = mkWorld (sent w) (console w ++ [["Modal opened with opportunity:"]])
         /\ state r = st
     end.
Proof.
  cbv zeta. destruct opportunity as [opp|], isOpen; unfold_modal;
    split_answers; repeat split.
Qed.

End DetailFetch.

Section DetailsRequest.

Lemma append_inj_r (a b s : string) : a ++ s = b ++ s -> a = b.
Proof.
  revert b. induction a as [|c a IH]; intros [|d b] H.
  - reflexivity.
  - apply (f_equal String.length) in H. cbn in H. rewrite length_append in H. lia.
  - apply (f_equal String.length) in H. cbn in H. rewrite length_append in H. lia.
  - cbn in H. injection H as -> H. f_equal. now apply IH.
Qed.

Lemma integer_text_read (z : Z) :
  DecimalString.NilZero.int_of_string (JS.integer_text z) = Some (Z.to_int z).
Proof.
  unfold JS.integer_text. apply DecimalString.NilZero.isi.
  - destruct z; cbn; try discriminate.
    intros [= H]. now apply DecimalPos.Unsigned.to_uint_nonnil in H.
  - destruct z; cbn; try discriminate.
    intros [= H]. now apply DecimalPos.Unsigned.to_uint_nonnil in H.
Qed.

Lemma integer_text_inj (a b : Z) : JS.integer_text a = JS.integer_text b -> a = b.
Proof.
  intros H. apply DecimalZ.to_int_inj.
  pose proof (integer_text_read a) as Ha. rewrite H, integer_text_read in Ha.
  now injection Ha.
Qed.

(** X17. The details request is keyed by the id of the row and by nothing
    else.  For rows whose id is a safe integer, the request is a [GET] of
    [http://localhost:8001/opportunities/{id}/details], the id in decimal
    digits, with the bearer token; two such rows ask for the same resource
    exactly when their ids are equal, whatever their other fields. *)
Theorem details_request_by_id (o1 o2 : Opportunity) :
  printed_in_full o1 -> printed_in_full o2 ->
  (DetailModal.details_request o1 = DetailModal.details_request o2
   <-> id o1 = id o2)
  /\ (forall i, id o1 = Some i ->
      DetailModal.details_request o1
      = Get ("http://localhost:8001/opportunities/"
             ++ DecimalString.NilZero.string_of_int (Z.to_int i) ++ "/details")
            [("Authorization", "Bearer dev-key-12345")]).
Proof.
  intros (i1 & E1 & _) (i2 & E2 & _). unfold DetailModal.details_request.
  rewrite E1, E2. split; [split|].
  - intros [= H]. apply append_inj_r in H. f_equal. now apply integer_text_inj.
  - now intros [= ->].
  - now intros i [= <-].
Qed.

End DetailsRequest.

Lemma details_request_by_id_witness :
  printed_in_full AAPL /\ printed_in_full TSLA
  /\ DetailModal.details_request AAPL <> DetailModal.details_request TSLA
  /\ DetailModal.details_request AAPL
     = Get "http://localhost:8001/opportunities/1/details"
           [("Authorization", "Bearer dev-key-12345")].
Proof.
  split; [exists 1%Z; split; reflexivity|].
  split; [exists 2%Z; split; reflexivity|].
  split.
  - intros H.
    apply (proj1 (proj1 (details_request_by_id AAPL TSLA
                           (ex_intro _ 1%Z (conj eq_refl eq_refl))
                           (ex_intro _ 2%Z (conj eq_refl eq_refl))))) in H.
    discriminate H.
  - exact (proj2 (details_request_by_id AAPL TSLA
                    (ex_intro _ 1%Z (conj eq_refl eq_refl))
                    (ex_intro _ 2%Z (conj eq_refl eq_refl))) 1%Z eq_refl).
Defined.

Section Sections.

Variable Details : Type.
Variable env : Env.
Variable w : World.

Lemma toggled_flag (section other : string) (m : gmap string bool) :
  default false (DetailModal.toggled section m !! other)
  = xorb (default false (m !! other)) (String.eqb section other).
Proof.
  unfold DetailModal.toggled.
  destruct (String.eqb_spec section other) as [->|Hne].
  - rewrite lookup_insert_eq. cbn. now rewrite xorb_true_r.
  - rewrite lookup_insert_ne by assumption. now rewrite xorb_false_r.
Qed.

(** X18. Clicking a section header twice.  When the flags object has the
    key, which holds of the four sections of the overlay from the start,
    one click negates the flag and a second click restores the state of
    the overlay exactly; the clicks send nothing and log nothing. *)
Theorem toggleSection_twice (section : string) (st : DetailModal.State Details) :
  is_Some (DetailModal.expandedSections st !! section) ->
  let once := DetailModal.toggleSection section env w st in
  let twice := DetailModal.toggleSection section env (world once) (state once) in
  DetailModal.isExpanded section (state once)
  = negb (DetailModal.isExpanded section st)
  /\ is_Some (DetailModal.expandedSections (state once) !! section)
  /\ twice = (Normal tt, w, st).
Proof.
  intros [b Hb]. cbv zeta. unfold DetailModal.isExpanded. unfold_modal.
  destruct w as [log out]. destruct st as [d l e m mob]. cbn in *.
  unfold DetailModal.toggled. rewrite !lookup_insert_eq, Hb. cbn.
  repeat split; [eauto|].
  rewrite insert_insert_eq, negb_involutive. now rewrite insert_id.
Qed.

(** X19. Any sequence of clicks on section headers, from any state: a
    section ends expanded exactly when its flag at the start and the
    parity of the number of clicks on it differ; clicks on the other
    sections do not count.  The clicks never throw, send nothing, and
    change no other cell of the overlay. *)
Theorem section_flag_parity
    (sections : list string) (section : string) (st : DetailModal.State Details) :
  let r := clicks sections env w st in
  completion r = Normal tt
  /\ world r = w
  /\ DetailModal.isExpanded section (state r)
     = xorb (DetailModal.isExpanded section st) (Nat.odd (hits section sections))
  /\ DetailModal.details (state r) = DetailModal.details st
  /\ DetailModal.loading (state r) = DetailModal.loading st
  /\ DetailModal.error (state r) = DetailModal.error st
  /\ DetailModal.isMobile (state r) = DetailModal.isMobile st.
Proof.
  cbv zeta. revert st. induction sections as [|s rest IH]; intros st.
  - cbn. unfold hits. cbn. rewrite xorb_false_r. repeat split.
  - change (clicks (s :: rest) env w st)
      with (clicks rest env w
              (DetailModal.mkState (DetailModal.details st) (DetailModal.loading st)
                 (DetailModal.error st)
                 (DetailModal.toggled s (DetailModal.expandedSections st))
                 (DetailModal.isMobile st))).
    destruct (IH (DetailModal.mkState (DetailModal.details st) (DetailModal.loading st)
                 (DetailModal.error st)
                 (DetailModal.toggled s (DetailModal.expandedSections st))
                 (DetailModal.isMobile st)))
      as (Hc & Hw & Hflag & Hd & Hl & He & Hm).
    repeat split; try assumption.
    rewrite Hflag. unfold DetailModal.isExpanded at 1. cbn [DetailModal.expandedSections].
    rewrite toggled_flag. unfold hits. cbn [List.filter].
    rewrite (String.eqb_sym section s).
    unfold DetailModal.isExpanded.
    destruct (String.eqb s section); cbn [length].
    + rewrite Nat.odd_succ, <- Nat.negb_odd.
      destruct (default false _), (Nat.odd _); reflexivity.
    + now rewrite xorb_false_r.
Qed.

End Sections.

Lemma toggleSection_twice_witness :
  is_Some (DetailModal.expandedSections
             (DetailModal.initial : DetailModal.State unit) !! "chart")
  /\ DetailModal.toggleSection "chart" list_fails quiet
       (state (DetailModal.toggleSection "chart" list_fails quiet
                 (DetailModal.initial : DetailModal.State unit)))
     = (Normal tt, quiet, DetailModal.initial).
Proof.
  split; [exists false; reflexivity|].
  exact (proj2 (proj2 (toggleSection_twice unit list_fails quiet "chart"
                         DetailModal.initial (ex_intro _ false eq_refl)))).
Defined.

(* ================================================================== *)
(** * The chart symbol and the chart link *)
(* ================================================================== *)

Section ChartSymbol.

Ltac each_unit c := destruct c as [[] [] [] [] [] [] [] []].

Lemma append_assoc (a b c : string) : (a ++ b) ++ c = a ++ (b ++ c).
Proof. induction a as [|x a IH]; simpl; [reflexivity|now rewrite IH]. Qed.

Lemma prefix_empty (s : string) : String.prefix "" s = true.
Proof. now destruct s. Qed.

Lemma toUpperCase_app (a b : string) :
  JS.toUpperCase (a ++ b) = JS.toUpperCase a ++ JS.toUpperCase b.
Proof.
  induction a as [|c a IH]; simpl; [reflexivity|].
  now rewrite IH, append_assoc.
Qed.

Lemma upper_unit_fixed (c : ascii) : JS.toUpperCase (JS.upper_unit c) = JS.upper_unit c.
Proof. each_unit c; reflexivity. Qed.

Lemma toUpperCase_idempotent (s : string) :
  JS.toUpperCase (JS.toUpperCase s) = JS.toUpperCase s.
Proof.
  induction s as [|c s IH]; simpl; [reflexivity|].
  now rewrite toUpperCase_app, upper_unit_fixed, IH.
Qed.

Lemma includes_colon_cons (c : ascii) (s : string) :
  JS.includes (String c s) ":" = Ascii.eqb c ":" || JS.includes s ":".
Proof.
  cbn [JS.includes String.prefix]. rewrite prefix_empty.
  destruct (ascii_dec ":" c) as [<-|Hne]; [reflexivity|].
  destruct (Ascii.eqb_spec c ":") as [->|_]; [congruence|reflexivity].
Qed.

Lemma includes_colon_upper_unit (c : ascii) (s : string) :
  JS.includes (JS.upper_unit c ++ s) ":" = Ascii.eqb c ":" || JS.includes s ":".
Proof.
  each_unit c;
    first [ apply includes_colon_cons
          | change (JS.includes (String "S" (String "S" s)) ":"
                    = false || JS.includes s ":");
            now rewrite !includes_colon_cons ].
Qed.

Lemma includes_colon_upper (s : string) :
  JS.includes (JS.toUpperCase s) ":" = JS.includes s ":".
Proof.
  induction s as [|c s IH]; [reflexivity|].
  cbn [JS.toUpperCase]. now rewrite includes_colon_upper_unit, includes_colon_cons, IH.
Qed.

Lemma upper_in_model_app (a b : string) :
  JS.upper_in_model (a ++ b) = JS.upper_in_model a && JS.upper_in_model b.
Proof.
  unfold JS.upper_in_model. induction a as [|c a IH]; simpl; [reflexivity|].
  now rewrite IH, andb_assoc.
Qed.

Lemma upper_in_model_unit (c : ascii) :
  JS.upper_in_model (String c "") = true -> JS.upper_in_model (JS.upper_unit c) = true.
Proof. each_unit c; intros H; first [reflexivity | discriminate H]. Qed.

Lemma upper_in_model_upper (s : string) :
  JS.upper_in_model s = true -> JS.upper_in_model (JS.toUpperCase s) = true.
Proof.
  induction s as [|c s IH]; [reflexivity|].
  change (String c s) with (String c "" ++ s). cbn [JS.toUpperCase].
  rewrite !upper_in_model_app. intros [Hc Hs]%andb_true_iff.
  change (String c "" ++ s) with (String c s). cbn [JS.toUpperCase].
  rewrite upper_in_model_app, (upper_in_model_unit c Hc). now apply IH.
Qed.

Lemma toUpperCase_empty (s : string) : JS.toUpperCase s = "" -> s = "".
Proof.
  destruct s as [|c s]; [reflexivity|]. cbn [JS.toUpperCase].
  each_unit c; discriminate.
Qed.

(** X20. The symbol handed to the chart.  Whatever the ticker, also a
    missing or an empty one, the symbol names an exchange (it includes a
    colon), is not empty, and is a fixed point of the formatter:
    formatting a symbol again gives the same symbol.  A ticker without a
    colon is listed on NASDAQ, and a ticker that already has one is only
    upper-cased. *)
Theorem formatSymbolForTradingView_shape (ticker : option string) :
  ticker_in_model ticker ->
  let symbol := DetailModal.formatSymbolForTradingView ticker in
  JS.includes symbol ":" = true
  /\ symbol <> ""
  /\ ticker_in_model (Some symbol)
  /\ DetailModal.formatSymbolForTradingView (Some symbol) = symbol
  /\ (forall s, ticker = Some s -> s <> "" ->
      symbol = if JS.includes s ":" then JS.toUpperCase s
               else "NASDAQ:" ++ JS.toUpperCase s).
Proof.
  intros Hmodel. cbv zeta.
  assert (Hfix : forall symbol,
             symbol <> "" -> JS.toUpperCase symbol = symbol ->
             JS.includes symbol ":" = true ->
             DetailModal.formatSymbolForTradingView (Some symbol) = symbol).
  { intros symbol Hne Hup Hcolon. unfold DetailModal.formatSymbolForTradingView, JS.truthy.
    destruct (String.eqb_spec symbol "") as [->|_]; [congruence|]. cbn [negb].
    now rewrite Hup, Hcolon. }
  destruct ticker as [s|]; cbn [ticker_in_model] in *;
    [|repeat split; try reflexivity; discriminate].
  destruct (String.eqb_spec s "") as [->|Hs];
    [repeat split; try reflexivity; try discriminate; congruence|].
  assert (Hsym : DetailModal.formatSymbolForTradingView (Some s)
                 = if JS.includes s ":" then JS.toUpperCase s
                   else "NASDAQ:" ++ JS.toUpperCase s).
  { unfold DetailModal.formatSymbolForTradingView, JS.truthy.
    destruct (String.eqb_spec s "") as [->|_]; [congruence|]. cbn [negb].
    now rewrite includes_colon_upper. }
  rewrite Hsym. destruct (JS.includes s ":") eqn:Hcolon.
  - assert (Hne : JS.toUpperCase s <> "") by (intros E; now apply toUpperCase_empty in E).
    repeat split.
    + now rewrite includes_colon_upper.
    + exact Hne.
    + now apply upper_in_model_upper.
    + apply Hfix; [exact Hne|apply toUpperCase_idempotent|now rewrite includes_colon_upper].
    + intros s' [= <-] _. now rewrite Hcolon.
  - assert (Hin : JS.includes ("NASDAQ:" ++ JS.toUpperCase s) ":" = true)
      by apply (includes_app "NASDAQ" ":" (JS.toUpperCase s)).
    repeat split.
    + exact Hin.
    + discriminate.
    + rewrite upper_in_model_app. now rewrite upper_in_model_upper.
    + apply Hfix; [discriminate| |exact Hin].
      now rewrite toUpperCase_app, toUpperCase_idempotent.
    + intros s' [= <-] _. now rewrite Hcolon.
Qed.

Lemma replace_first_colon (exchange rest : string) :
  JS.includes exchange ":" = false ->
  JS.replace (exchange ++ ":" ++ rest) ":" "-" = exchange ++ "-" ++ rest.
Proof.
  induction exchange as [|c exchange IH]; intros H.
  - cbn. rewrite prefix_empty, Nat.sub_0_r. cbn. f_equal.
    destruct rest as [|d rest]; [reflexivity|].
    cbn. f_equal. apply substring_0_all. lia.
  - rewrite includes_colon_cons in H. apply orb_false_iff in H as [Hc Hrest].
    change (String c exchange ++ ":" ++ rest) with (String c (exchange ++ ":" ++ rest)).
    cbn [JS.replace String.prefix].
    destruct (ascii_dec ":" c) as [<-|_]; [discriminate Hc|].
    change (String c exchange ++ "-" ++ rest) with (String c (exchange ++ "-" ++ rest)).
    f_equal. now apply IH.
Qed.

(** X21. The link under the chart.  [replace] rewrites the first colon
    only: for a symbol [exchange:rest] the link ends in [exchange-rest/],
    and colons of [rest] stay.  Composed with the formatter of the
    overlay: a ticker without a colon links to its upper-cased NASDAQ
    page, and a missing ticker to the page of NASDAQ-AAPL. *)
Theorem chartLink_of_symbol (exchange rest : string) :
  JS.includes exchange ":" = false ->
  DetailModal.chartLink (exchange ++ ":" ++ rest)
  = "https://www.tradingview.com/symbols/" ++ exchange ++ "-" ++ rest ++ "/"
  /\ (ticker_in_model (Some exchange) -> exchange <> "" ->
      DetailModal.chartLink (DetailModal.formatSymbolForTradingView (Some exchange))
      = "https://www.tradingview.com/symbols/NASDAQ-" ++ JS.toUpperCase exchange ++ "/")
  /\ DetailModal.chartLink (DetailModal.formatSymbolForTradingView None)
     = "https://www.tradingview.com/symbols/NASDAQ-AAPL/".
Proof.
  intros Hcolon. unfold DetailModal.chartLink. split; [|split; [|reflexivity]].
  - rewrite replace_first_colon by assumption. now rewrite !append_assoc.
  - intros _ Hne. unfold DetailModal.formatSymbolForTradingView, JS.truthy.
    destruct (String.eqb_spec exchange "") as [->|_]; [congruence|]. cbn [negb].
    rewrite includes_colon_upper, Hcolon.
    change ("NASDAQ:" ++ JS.toUpperCase exchange)
      with ("NASDAQ" ++ ":" ++ JS.toUpperCase exchange).
    now rewrite replace_first_colon by reflexivity.
Qed.

End ChartSymbol.

Lemma formatSymbolForTradingView_shape_witness :
  ticker_in_model (Some "nyse:ibm")
  /\ DetailModal.formatSymbolForTradingView
       (Some (DetailModal.formatSymbolForTradingView (Some "nyse:ibm")))
     = DetailModal.formatSymbolForTradingView (Some "nyse:ibm").
Proof.
  split; [reflexivity|].
  exact (proj1 (proj2 (proj2 (proj2
           (formatSymbolForTradingView_shape (Some "nyse:ibm") eq_refl))))).
Defined.

Lemma chartLink_of_symbol_witness :
  JS.includes "NYSE" ":" = false
  /\ DetailModal.chartLink "NYSE:BRK:B"
     = "https://www.tradingview.com/symbols/NYSE-BRK:B/".
Proof.
  split; [reflexivity|].
  exact (proj1 (chartLink_of_symbol "NYSE" "BRK:B" eq_refl)).
Defined.

(* ================================================================== *)
(** * The confidence figure of a card *)
(* ================================================================== *)

Section PercentLabel.

#[local] Open Scope Z_scope.

(** A valid finite number that is at least 70, as a fraction. *)
Lemma finite_at_least_70 (m : positive) (e : Z) :
  valid_binary (S754_finite false m e) = true ->
  SFleb (S754_finite false m70 (-46)) (S754_finite false m e) = true ->
  exists num den,
    fraction (S754_finite false m e) = Some (num, den)
    /\ 0 < den /\ 70 * den <= num.
Proof.
  intros Hv Hle.
  unfold valid_binary, bounded, canonical_mantissa in Hv.
  apply andb_prop in Hv as [Hc _]. apply Z.eqb_eq in Hc. rewrite fexp64 in Hc.
  pose proof (digits2_bounds m) as [Hlo _].
  apply SFleb_pos_finite in Hle as [He|[<- Hm]].
  - assert (Hd : Zpos (digits2_pos m) = 53) by lia.
    rewrite Hd in Hlo. change (2 ^ (53 - 1)) with 4503599627370496 in Hlo.
    unfold fraction. cbn [cond_Zopp].
    destruct (Z.leb_spec 0 e) as [Hpos|Hneg].
    + exists (Zpos m * 2 ^ e), 1. split; [reflexivity|split; [lia|]].
      assert (1 <= 2 ^ e) by (apply (Z.pow_le_mono_r 2 0 e); lia). nia.
    + exists (Zpos m), (2 ^ (- e)). split; [reflexivity|split; [apply Z.pow_pos_nonneg; lia|]].
      assert (2 ^ (- e) <= 2 ^ 45) by (apply Z.pow_le_mono_r; lia).
      change (2 ^ 45) with 35184372088832 in *. lia.
  - exists (Zpos m), (2 ^ 46). split; [reflexivity|split; [reflexivity|]].
    change (70 * 2 ^ 46) with (Zpos m70). exact Hm.
Qed.

(** X22. The confidence figure against the "high-confidence" filter.
    For every row that the filter keeps (confidence at least 0.7) the
    card reads "N% confidence" with an integer N of at least 70, or, when
    the product overflows, "Infinity%".  The converse fails: a row with
    confidence 0.699 reads "70% confidence" and is not kept. *)
Theorem percent_label_of_high_confidence :
  (forall opp : Opportunity,
      JS.ge (confidence_score opp) 0.7 = true ->
      Prim2SF (OpportunitiesPage.confidencePercent opp) = S754_infinity false
      \/ exists n : Z,
           integer_value (Prim2SF (OpportunitiesPage.confidencePercent opp)) = Some n
           /\ 70 <= n)
  /\ (exists opp : Opportunity,
         JS.ge (confidence_score opp) 0.7 = false
         /\ integer_value (Prim2SF (OpportunitiesPage.confidencePercent opp)) = Some 70).
Proof.
  split.
  - intros opp Hge. unfold OpportunitiesPage.confidencePercent.
    rewrite <- times_100_cutoff in Hge.
    set (y := (confidence_score opp * 100)%float) in *.
    pose proof (Prim2SF_valid y) as Hv.
    unfold JS.ge in Hge. rewrite FloatAxioms.leb_spec in Hge.
    change (Prim2SF 70) with (S754_finite false m70 (-46)) in Hge.
    destruct (Prim2SF y) as [s|s| |s m e] eqn:Ey; try discriminate Hge.
    + destruct s; [discriminate Hge|].
      left. unfold JS.Math_round. now rewrite Ey.
    + destruct s; [discriminate Hge|]. right.
      destruct (finite_at_least_70 m e Hv Hge) as (num & den & Hf & Hden & Hnum).
      rewrite <- Ey in Hf.
      destruct (Math_round_nearest y num den Hf) as (n & Hn & Hlo & _).
      exists n. split; [exact Hn|]. nia.
  - exists (mkOpportunity None "X" "Breakout" None 0.699). split; vm_compute; reflexivity.
Qed.

End PercentLabel.
